(** * A server-rendered blog: registration, sign-in, sessions and posts

    Shallow embedding of [src/index.js] (an Express application over a
    PostgreSQL client, bcrypt and Passport) and the properties its
    specification states about it.

    Every [await] of the source is a step of the [Async] monad below: a
    computation over the world (the two tables and the requesting client's
    session) that either returns a value or throws.  What the source cannot
    decide by itself -- whether the store or the session store fails, which
    salt bcrypt draws -- is an explicit input of every request, the [Env]
    record. *)

From stdpp Require Import base numbers list strings gmap sorting.

Local Open Scope Z_scope.

(** ** JavaScript values the handlers look at *)

(** An [Error] object; the handlers only ever read [error.code]. *)
Record JsError := mkError {
  code : option string;
  message : string
}.

(** A field of [req.body] as the HTML forms submit it: [undefined] when the
    field is absent ([None]) or a string. *)
Definition Field := option string.

(** JavaScript truthiness of such a value: [undefined] and the empty string
    are falsy, every other string is truthy. *)
Definition truthy (v : Field) : bool :=
  match v with
  | None => false
  | Some s => negb (String.eqb s "")
  end.

(** The string held by a truthy field: [required v = None] exactly when
    [!v] holds in the source. *)
Definition required (v : Field) : option string :=
  match v with
  | Some s => if String.eqb s "" then None else Some s
  | None => None
  end.

(** What evaluating a property of [undefined] throws. *)
Definition type_error : JsError :=
  mkError None "Cannot read properties of undefined".

(** ** The two tables *)

(** A row of [users] as [SELECT *] returns it. *)
Record User := mkUser {
  user_id : Z;
  user_username : string;
  user_password : string
}.

Global Instance User_eq_dec : EqDecision User.
Proof. solve_decision. Defined.

(** A row of [INSERT INTO users ... RETURNING id, username]. *)
Record NewUser := mkNewUser {
  new_id : Z;
  new_username : string
}.

Record Post := mkPost {
  post_id : Z;
  post_title : string;
  post_content : string;
  post_author : string
}.

Global Instance Post_eq_dec : EqDecision Post.
Proof. solve_decision. Defined.

(** Modelled from the spec: the schema of the two tables is not in the
    source.  [users(id, username unique, password)] and
    [posts(id, title, content, author)]; ids are integers the store assigns
    in creation order, here from one counter per table. *)
Record Db := mkDb {
  users : list User;
  users_seq : Z;
  posts : list Post;
  posts_seq : Z
}.

(** The session of the requesting client: the user id Passport keeps under
    [session.passport.user], if any. *)
Definition Session := option Z.

Record World := mkWorld {
  db : Db;
  session : Session
}.

(** ** Awaited computations *)

Inductive Outcome (A : Type) :=
| Returned (a : A)
| Thrown (e : JsError).
Arguments Returned {A} a.
Arguments Thrown {A} e.

Definition Async (A : Type) : Type := World -> Outcome A * World.

Definition ret {A} (a : A) : Async A := fun w => (Returned a, w).

Definition throw {A} (e : JsError) : Async A := fun w => (Thrown e, w).

Definition bind {A B} (m : Async A) (k : A -> Async B) : Async B :=
  fun w =>
    match m w with
    | (Returned a, w') => k a w'
    | (Thrown e, w') => (Thrown e, w')
    end.

(** [try { body } catch (error) { handler }] *)
Definition try_catch {A} (body : Async A) (handler : JsError -> Async A)
  : Async A :=
  fun w =>
    match body w with
    | (Returned a, w') => (Returned a, w')
    | (Thrown e, w') => handler e w'
    end.

(** A promise that is already settled. *)
Definition settled {A} (o : Outcome A) : Async A := fun w => (o, w).

Declare Scope async_scope.
Delimit Scope async_scope with async.
Notation "x <- 'await' m ;; k" := (bind m (fun x => k))
  (at level 100, m at next level, right associativity) : async_scope.
Notation "'await' m ;; k" := (bind m (fun _ => k))
  (at level 100, m at next level, right associativity) : async_scope.
Local Open Scope async_scope.

(** ** What the environment decides for one request *)

Record Env := mkEnv {
  (** the store fails while Passport restores the identity of the session *)
  deserialize_fault : option JsError;
  (** the store fails on the query of the route handler (or of the strategy) *)
  query_fault : option JsError;
  (** the salt [bcrypt.hash] draws *)
  salt : string;
  (** the session store fails in [req.login] / [req.logout] *)
  session_fault : option JsError
}.

(** ** The store *)

(** [db.query(...)]: rejects with the fault when the store fails, otherwise
    runs the statement on the tables. *)
Definition db_query {A} (fault : option JsError)
    (statement : Db -> Outcome A * Db) : Async A :=
  fun w =>
    match fault with
    | Some e => (Thrown e, w)
    | None =>
        let '(r, d) := statement (db w) in
        (r, mkWorld d (session w))
    end.

(** Modelled from the spec: the duplicate-key signal of the store, the error
    whose [code] is ['23505']. *)
Definition unique_violation : JsError :=
  mkError (Some "23505") "duplicate key value violates unique constraint".

(** [ORDER BY id DESC] *)
Definition id_desc (p q : Post) : Prop := post_id q <= post_id p.

Global Instance id_desc_dec p q : Decision (id_desc p q).
Proof. unfold id_desc. apply _. Defined.

(** [SELECT * FROM users WHERE username = $1] *)
Definition select_users_by_username (name : string) (d : Db)
  : Outcome (list User) * Db :=
  (Returned (filter (fun u => user_username u = name) (users d)), d).

(** [SELECT * FROM users WHERE id = $1] *)
Definition select_users_by_id (id : Z) (d : Db) : Outcome (list User) * Db :=
  (Returned (filter (fun u => user_id u = id) (users d)), d).

(** [SELECT * FROM posts ORDER BY id DESC] *)
Definition select_posts_desc (d : Db) : Outcome (list Post) * Db :=
  (Returned (merge_sort id_desc (posts d)), d).

(** Modelled from the spec: [INSERT INTO users (username, password) VALUES
    ($1, $2) RETURNING id, username] under the unique constraint on
    [username]; the id is the next value of the table's counter. *)
Definition insert_user (name hash : string) (d : Db)
  : Outcome (list NewUser) * Db :=
  if decide (name ∈ user_username <$> users d) then
    (Thrown unique_violation, d)
  else
    let id := users_seq d in
    (Returned [mkNewUser id name],
     mkDb (users d ++ [mkUser id name hash]) (id + 1) (posts d) (posts_seq d)).

(** [INSERT INTO posts (title, content, author) VALUES ($1, $2, $3)] *)
Definition insert_post (title content author : string) (d : Db)
  : Outcome (list Post) * Db :=
  let id := posts_seq d in
  (Returned [],
   mkDb (users d) (users_seq d)
        (posts d ++ [mkPost id title content author]) (id + 1)).

(** ** Requests and responses *)

Record Request := mkRequest {
  req_body : gmap string string;
  (** [req.user], set by Passport from the session *)
  req_user : option User
}.

(** The second argument of [res.render]. *)
Inductive Locals :=
| no_locals
| locals_posts (rows : list Post)
| locals_post (row : Post)
| locals_error (error : string)
| locals_write (error success : option string).

Inductive Response :=
| render (status : Z) (view : string) (locals_user : option User)
    (locals : Locals)
| send (status : Z) (text : string)
| redirect (url : string)
| next_error (e : JsError).

(** The status line of a response the application itself writes;
    [res.redirect] answers 302, and an error handed to [next] leaves the
    answer to Express. *)
Definition status_code (r : Response) : option Z :=
  match r with
  | render s _ _ _ => Some s
  | send s _ => Some s
  | redirect _ => Some 302
  | next_error _ => None
  end.

(** What a Passport callback is called with: [done(err)],
    [done(null, false, info)] or [done(null, user)]. *)
Inductive Done (I U : Type) :=
| done_error (e : JsError)
| done_false (info : I)
| done_user (u : U).
Arguments done_error {I U} e.
Arguments done_false {I U} info.
Arguments done_user {I U} u.

(** Objects with an [id] property. *)
Class HasId (U : Type) := id_of : U -> Z.
Global Instance User_HasId : HasId User := user_id.
Global Instance NewUser_HasId : HasId NewUser := new_id.

(** [passport.serializeUser((user, done) => done(null, user.id))] *)
Definition serializeUser {U} `{HasId U} (user : U) : Z := id_of user.

(** [req.isAuthenticated()] *)
Definition isAuthenticated (req : Request) : bool :=
  match req_user req with
  | Some _ => true
  | None => false
  end.

(** [req.login(user, callback)]: the value is the argument of the callback. *)
Definition req_login {U} `{HasId U} (env : Env) (user : U)
  : Async (option JsError) :=
  fun w =>
    match session_fault env with
    | Some e => (Returned (Some e), w)
    | None => (Returned None, mkWorld (db w) (Some (serializeUser user)))
    end.

(** [req.logout(callback)] *)
Definition req_logout (env : Env) : Async (option JsError) :=
  fun w =>
    match session_fault env with
    | Some e => (Returned (Some e), w)
    | None => (Returned None, mkWorld (db w) None)
    end.

Inductive Route :=
| GET_home
| GET_posts_id (id : string)
| GET_about
| GET_register
| POST_register
| GET_sign_in
| POST_sign_in
| POST_sign_out
| GET_write
| POST_write
| GET_welcome.

Section App.

(** The collaborators that are not part of the repository: bcrypt, and the
    store's conversion of a text parameter to an integer column (the
    integer, or the error the query is rejected with). *)
Variable bcrypt_hash : string -> Z -> string -> Outcome string.
Variable bcrypt_compare : string -> string -> Outcome bool.
Variable int4_in : string -> Z + JsError.

(** [SELECT * FROM posts WHERE id = $1] with [req.params.id] as [$1] *)
Definition select_posts_by_id (id : string) (d : Db)
  : Outcome (list Post) * Db :=
  match int4_in id with
  | inl n => (Returned (filter (fun p => post_id p = n) (posts d)), d)
  | inr e => (Thrown e, d)
  end.

(** The verify function of the local strategy. *)
Definition LocalStrategy (env : Env) (username password : string)
  : Async (Done string User) :=
  try_catch
    (result <- await db_query (query_fault env)
                 (select_users_by_username username) ;;
     match result with
     | [] => ret (done_false "Invalid username or password")
     | user :: _ =>
         isMatch <- await settled
                      (bcrypt_compare password (user_password user)) ;;
         if negb isMatch
         then ret (done_false "Invalid username or password")
         else ret (done_user user)
     end)
    (fun error => ret (done_error error)).

Definition deserializeUser (env : Env) (id : Z) : Async (Done unit User) :=
  try_catch
    (result <- await db_query (deserialize_fault env)
                 (select_users_by_id id) ;;
     match result with
     | [] => ret (done_false tt)
     | row :: _ => ret (done_user row)
     end)
    (fun error => ret (done_error error)).

(** Middleware to check if user is authenticated *)
Definition ensureAuthenticated (req : Request) (next : Async Response)
  : Async Response :=
  if isAuthenticated req then next else ret (redirect "/sign-in").

(** *** Routes *)

Definition get_home (env : Env) (req : Request) : Async Response :=
  try_catch
    (result <- await db_query (query_fault env) select_posts_desc ;;
     ret (render 200 "home" (req_user req) (locals_posts result)))
    (fun error => ret (render 200 "home" (req_user req) (locals_posts []))).

Definition get_posts_id (env : Env) (req : Request) (id : string)
  : Async Response :=
  try_catch
    (result <- await db_query (query_fault env) (select_posts_by_id id) ;;
     match result with
     | [] => ret (send 404 "Post not found")
     | row :: _ => ret (render 200 "post" (req_user req) (locals_post row))
     end)
    (fun error => ret (send 500 "Server error")).

Definition get_about (req : Request) : Async Response :=
  ret (render 200 "about" (req_user req) no_locals).

Definition get_register (req : Request) : Async Response :=
  ret (render 200 "register" (req_user req) no_locals).

Definition post_register (env : Env) (req : Request) : Async Response :=
  match required (req_body req !! "username"),
        required (req_body req !! "password") with
  | Some username, Some password =>
      try_catch
        (hashedPassword <- await settled
                             (bcrypt_hash password 10 (salt env)) ;;
         result <- await db_query (query_fault env)
                      (insert_user username hashedPassword) ;;
         match result with
         | user :: _ =>
             err <- await req_login env user ;;
             match err with
             | Some _ => ret (redirect "/sign-in")
             | None => ret (redirect "/welcome.html")
             end
         | [] => throw type_error
         end)
        (fun error =>
           if decide (code error = Some "23505") then
             ret (redirect
                    "/sign-in?error=Username already exists. Please sign in")
           else
             ret (render 500 "register" (req_user req)
                    (locals_error "Internal server error.")))
  | _, _ =>
      ret (render 400 "register" (req_user req)
             (locals_error "Username and password are required."))
  end.

Definition get_sign_in (req : Request) : Async Response :=
  if isAuthenticated req then ret (redirect "/welcome")
  else ret (render 200 "sign-in" (req_user req) no_locals).

(** [passport.authenticate('local', callback)]: the strategy of
    passport-local reads the two fields of the body and fails with
    'Missing credentials' before the verify function runs when one of them
    is falsy. *)
Definition passport_authenticate_local (env : Env) (req : Request)
  : Async (Done string User) :=
  match required (req_body req !! "username"),
        required (req_body req !! "password") with
  | Some username, Some password => LocalStrategy env username password
  | _, _ => ret (done_false "Missing credentials")
  end.

Definition post_sign_in (env : Env) (req : Request) : Async Response :=
  outcome <- await passport_authenticate_local env req ;;
  match outcome with
  | done_error err => ret (next_error err)
  | done_false info =>
      ret (render 401 "sign-in" (req_user req) (locals_error info))
  | done_user user =>
      err <- await req_login env user ;;
      match err with
      | Some e => ret (next_error e)
      | None => ret (redirect "/welcome")
      end
  end.

Definition post_sign_out (env : Env) : Async Response :=
  err <- await req_logout env ;;
  match err with
  | Some e => ret (next_error e)
  | None => ret (redirect "/")
  end.

Definition get_write (req : Request) : Async Response :=
  ret (render 200 "write" (req_user req) (locals_write None None)).

Definition post_write (env : Env) (req : Request) : Async Response :=
  match required (req_body req !! "title"),
        required (req_body req !! "content") with
  | Some title, Some content =>
      try_catch
        (author <- await match req_user req with
                         | Some user => ret (user_username user)
                         | None => throw type_error
                         end ;;
         await db_query (query_fault env)
                 (insert_post title content author) ;;
         ret (render 200 "write" (req_user req)
                (locals_write None (Some "Post created successfully!"))))
        (fun error =>
           ret (render 500 "write" (req_user req)
                  (locals_write (Some "Internal server error.") None)))
  | _, _ =>
      ret (render 400 "write" (req_user req)
             (locals_write (Some "Title and content are required.") None))
  end.

Definition get_welcome : Async Response := ret (redirect "/welcome.html").

Definition route_handler (env : Env) (route : Route) (req : Request)
  : Async Response :=
  match route with
  | GET_home => get_home env req
  | GET_posts_id id => get_posts_id env req id
  | GET_about => get_about req
  | GET_register => get_register req
  | POST_register => post_register env req
  | GET_sign_in => get_sign_in req
  | POST_sign_in => post_sign_in env req
  | POST_sign_out => post_sign_out env
  | GET_write => ensureAuthenticated req (get_write req)
  | POST_write => ensureAuthenticated req (post_write env req)
  | GET_welcome => get_welcome
  end.

(** [passport.session()]: the value of [req.user], restored from the id
    kept in the session; an id that no longer resolves is dropped from the
    session, and an error of [deserializeUser] is thrown on to [next]. *)
Definition passport_session (env : Env) : Async (option User) :=
  fun w =>
    match session w with
    | None => ret None w
    | Some id =>
        (outcome <- await deserializeUser env id ;;
         match outcome with
         | done_error err => throw err
         | done_false _ => fun w' => (Returned None, mkWorld (db w') None)
         | done_user user => ret (Some user)
         end) w
    end.

(** One request through the middleware chain [app.use(...)] sets up and
    then its route; an error of the chain ends the request at [next]. *)
Definition app (env : Env) (route : Route) (body : gmap string string)
  : Async Response :=
  fun w =>
    match passport_session env w with
    | (Returned user, w') => route_handler env route (mkRequest body user) w'
    | (Thrown e, w') => (Returned (next_error e), w')
    end.

End App.

(** ** Instances of the collaborators for running the handlers *)

(** A stand-in for bcrypt: the salt (two characters) followed by the data. *)
Definition demo_hash (data : string) (rounds : Z) (salt : string)
  : Outcome string :=
  Returned (salt +:+ data).

Definition demo_compare (data hash : string) : Outcome bool :=
  Returned (String.eqb
              (String.substring 2 (String.length hash - 2)%nat hash) data).

Fixpoint decimal (s : string) (acc : Z) : option Z :=
  match s with
  | EmptyString => Some acc
  | String c s' =>
      let n := Z.of_nat (Ascii.nat_of_ascii c) - 48 in
      if (0 <=? n) && (n <=? 9) then decimal s' (10 * acc + n) else None
  end.

(** A stand-in for the store's integer input: decimal digits only. *)
Definition demo_int4_in (s : string) : Z + JsError :=
  match s with
  | EmptyString => inr (mkError (Some "22P02") "invalid input syntax")
  | _ =>
      match decimal s 0 with
      | Some n => inl n
      | None => inr (mkError (Some "22P02") "invalid input syntax")
      end
  end.

Definition empty_db : Db := mkDb [] 1 [] 1.

Definition no_faults (salt : string) : Env := mkEnv None None salt None.

(** The body of a submitted form. *)
Definition form (fields : list (string * string)) : gmap string string :=
  list_to_map fields.

Definition sign_in_form (name password : string) : gmap string string :=
  form [("username", name); ("password", password)].

Definition post_form (title content : string) : gmap string string :=
  form [("title", title); ("content", content)].

Definition alice : User := mkUser 1 "alice" "s1pw".

Definition db_alice : Db := mkDb [alice] 2 [] 1.

Definition store_down : JsError := mkError (Some "08006") "connection failure".

Definition session_down : JsError := mkError None "session store failure".

(** The unique constraint and the id counters of the two tables. *)
Record db_wf (d : Db) : Prop := mk_db_wf {
  wf_usernames : NoDup (user_username <$> users d);
  wf_user_ids : Forall (fun u => user_id u < users_seq d) (users d);
  wf_post_ids : Forall (fun p => post_id p < posts_seq d) (posts d);
  wf_post_ids_nodup : NoDup (post_id <$> posts d)
}.

(** The response of the [catch] block of POST /register. *)
Definition register_failure (req : Request) (error : JsError) : Response :=
  if decide (code error = Some "23505") then
    redirect "/sign-in?error=Username already exists. Please sign in"
  else
    render 500 "register" (req_user req)
      (locals_error "Internal server error.").

(** The reading of "any failure other than a duplicate-username conflict
    results in an HTTP 500 response" for one submission: a response that is
    neither the redirect of a successful registration nor the
    duplicate-username redirect has status 500. *)
Definition register_failures_are_500
    (bcrypt_hash : string -> Z -> string -> Outcome string)
    (env : Env) (req : Request) (w : World) : Prop :=
  truthy (req_body req !! "username") = true ->
  truthy (req_body req !! "password") = true ->
  forall r w',
    post_register bcrypt_hash env req w = (Returned r, w') ->
    r <> redirect "/welcome.html" ->
    r <> redirect "/sign-in?error=Username already exists. Please sign in" ->
    status_code r = Some 500.

(** A POST /write submission of a signed-in user with both fields, on which
    the store does not fail. *)
Definition submits (env : Env) (req : Request) (user : User)
    (title content : string) : Prop :=
  query_fault env = None
  /\ req_user req = Some user
  /\ required (req_body req !! "title") = Some title
  /\ required (req_body req !! "content") = Some content.

(** A sequence of requests of one client, served one after the other. *)
Fixpoint serve
    (bcrypt_hash : string -> Z -> string -> Outcome string)
    (bcrypt_compare : string -> string -> Outcome bool)
    (int4_in : string -> Z + JsError)
    (requests : list (Env * Route * gmap string string)) (w : World)
  : World :=
  match requests with
  | [] => w
  | (env, route, body) :: rest =>
      serve bcrypt_hash bcrypt_compare int4_in rest
        (app bcrypt_hash bcrypt_compare int4_in env route body w).2
  end.

(** * Properties *)

Lemma required_truthy (v : Field) : required v = None <-> truthy v = false.
Proof.
  destruct v as [s|]; simpl; [|done].
  destruct (String.eqb s ""); simpl; split; congruence.
Qed.

Lemma required_Some (v : Field) (s : string) :
  required v = Some s <-> v = Some s /\ s <> "".
Proof.
  destruct v as [t|]; simpl.
  - destruct (String.eqb_spec t ""); split.
    + done.
    + intros [[= ->] ?]. done.
    + intros [= ->]. done.
    + intros [[= ->] _]. done.
  - split; [done|intros [? _]; done].
Qed.

Lemma filter_key_absent {A K} `{EqDecision K} (f : A -> K) (k : K)
    (l : list A) :
  k ∉ f <$> l -> filter (fun y => f y = k) l = [].
Proof.
  induction l as [|a l IH]; intros Hk; [done|].
  rewrite fmap_cons, not_elem_of_cons in Hk. destruct Hk as [Hne Hk].
  rewrite filter_cons_False by congruence. auto.
Qed.

Lemma filter_key_unique {A K} `{EqDecision K} (f : A -> K) (x : A)
    (l : list A) :
  NoDup (f <$> l) -> x ∈ l -> filter (fun y => f y = f x) l = [x].
Proof.
  induction l as [|a l IH]; intros Hnd Hx; [by apply elem_of_nil in Hx|].
  rewrite fmap_cons, NoDup_cons in Hnd. destruct Hnd as [Ha Hnd].
  apply elem_of_cons in Hx as [->|Hx].
  - rewrite filter_cons_True by done. f_equal. by apply filter_key_absent.
  - rewrite filter_cons_False; [auto|].
    intros Heq. apply Ha. rewrite Heq. by apply list_elem_of_fmap_2.
Qed.

Lemma key_unique {A K} (f : A -> K) (l : list A) (x y : A) :
  NoDup (f <$> l) -> x ∈ l -> y ∈ l -> f x = f y -> x = y.
Proof.
  induction l as [|a l IH]; intros Hnd Hx Hy Hf; [by apply elem_of_nil in Hx|].
  rewrite fmap_cons, NoDup_cons in Hnd. destruct Hnd as [Ha Hnd].
  apply elem_of_cons in Hx as [->|Hx]; apply elem_of_cons in Hy as [->|Hy].
  - done.
  - exfalso. apply Ha. rewrite Hf. by apply list_elem_of_fmap_2.
  - exfalso. apply Ha. rewrite <- Hf. by apply list_elem_of_fmap_2.
  - auto.
Qed.

(** *** [ORDER BY id DESC] *)

Global Instance id_desc_total : Total id_desc.
Proof. intros p q. unfold id_desc. lia. Qed.

Global Instance id_desc_trans : Transitive id_desc.
Proof. intros p q r. unfold id_desc. lia. Qed.

(** A row whose id is above every id of the table comes first. *)
Lemma merge_sort_newest (l : list Post) (p : Post) :
  Forall (fun q => post_id q < post_id p) l ->
  NoDup (post_id <$> l) ->
  merge_sort id_desc (l ++ [p]) = p :: merge_sort id_desc l.
Proof.
  intros Hlt Hnd.
  assert (NoDup (post_id <$> (p :: l))) as Hnd'.
  { rewrite fmap_cons. apply NoDup_cons. split; [|done].
    intros (q & Hq & Hin)%list_elem_of_fmap.
    rewrite Forall_forall in Hlt. specialize (Hlt q Hin). lia. }
  assert (merge_sort id_desc (l ++ [p]) ≡ₚ p :: l) as Hperm1.
  { rewrite merge_sort_Permutation. by rewrite Permutation_app_comm. }
  assert (p :: merge_sort id_desc l ≡ₚ p :: l) as Hperm2.
  { by rewrite merge_sort_Permutation. }
  apply (StronglySorted_unique_strong id_desc).
  - intros x y Hx Hy Hxy Hyx. rewrite Hperm1 in Hx. rewrite Hperm2 in Hy.
    apply (key_unique post_id (p :: l)); [done..|].
    unfold id_desc in *. lia.
  - apply StronglySorted_merge_sort; apply _.
  - apply StronglySorted_cons. split.
    + rewrite merge_sort_Permutation. eapply Forall_impl; [exact Hlt|].
      intros q Hq. unfold id_desc. simpl in Hq. lia.
    + apply StronglySorted_merge_sort; apply _.
  - by rewrite Hperm1, Hperm2.
Qed.

(** Unfolds one handler down to the monad's primitives. *)
Ltac run :=
  unfold bind, try_catch, ret, throw, settled, db_query; simpl.

Section Properties.

Set Default Proof Using "Type".

Variable bcrypt_hash : string -> Z -> string -> Outcome string.
Variable bcrypt_compare : string -> string -> Outcome bool.
Variable int4_in : string -> Z + JsError.

(** The verify function never throws: every failure goes through [done]. *)
Lemma LocalStrategy_returns env name pw w :
  exists d w', LocalStrategy bcrypt_compare env name pw w = (Returned d, w').
Proof.
  unfold LocalStrategy. run.
  destruct (query_fault env); simpl; [eauto|].
  destruct (filter _ _) as [|row rows]; simpl; [eauto|].
  destruct (bcrypt_compare pw (user_password row)) as [[]|]; simpl; eauto.
Qed.

Lemma LocalStrategy_unknown env name pw w :
  query_fault env = None ->
  name ∉ user_username <$> users (db w) ->
  LocalStrategy bcrypt_compare env name pw w
  = (Returned (done_false "Invalid username or password"), w).
Proof.
  intros Hq Hname. unfold LocalStrategy. run. rewrite Hq. simpl.
  rewrite (filter_key_absent user_username) by done.
  by destruct w.
Qed.

Lemma LocalStrategy_mismatch env row pw w :
  query_fault env = None ->
  NoDup (user_username <$> users (db w)) ->
  row ∈ users (db w) ->
  bcrypt_compare pw (user_password row) = Returned false ->
  LocalStrategy bcrypt_compare env (user_username row) pw w
  = (Returned (done_false "Invalid username or password"), w).
Proof.
  intros Hq Hnd Hrow Hcmp. unfold LocalStrategy. run. rewrite Hq. simpl.
  rewrite (filter_key_unique user_username) by done. simpl.
  rewrite Hcmp. simpl. by destruct w.
Qed.

(** C1: a sign-in attempt with a username that has no user record and one
    with an existing username whose password does not match are rejected
    with the same message, 'Invalid username or password': the verify
    function calls [done] with the same arguments, and POST /sign-in
    answers both with the same 401 page, leaving the world as it was. *)
Theorem sign_in_failures_indistinguishable
    env w user body1 body2 name1 pw1 pw2 row :
  query_fault env = None ->
  NoDup (user_username <$> users (db w)) ->
  required (body1 !! "username") = Some name1 ->
  required (body1 !! "password") = Some pw1 ->
  name1 ∉ user_username <$> users (db w) ->
  required (body2 !! "username") = Some (user_username row) ->
  required (body2 !! "password") = Some pw2 ->
  row ∈ users (db w) ->
  bcrypt_compare pw2 (user_password row) = Returned false ->
  LocalStrategy bcrypt_compare env name1 pw1 w
  = (Returned (done_false "Invalid username or password"), w)
  /\ LocalStrategy bcrypt_compare env (user_username row) pw2 w
     = LocalStrategy bcrypt_compare env name1 pw1 w
  /\ post_sign_in bcrypt_compare env (mkRequest body1 user) w
     = (Returned (render 401 "sign-in" user
                    (locals_error "Invalid username or password")), w)
  /\ post_sign_in bcrypt_compare env (mkRequest body2 user) w
     = post_sign_in bcrypt_compare env (mkRequest body1 user) w.
Proof.
  intros Hq Hnd Hn1 Hp1 Hfresh Hn2 Hp2 Hrow Hcmp.
  pose proof (LocalStrategy_unknown env name1 pw1 w Hq Hfresh) as H1.
  pose proof (LocalStrategy_mismatch env row pw2 w Hq Hnd Hrow Hcmp) as H2.
  assert (post_sign_in bcrypt_compare env (mkRequest body1 user) w
          = (Returned (render 401 "sign-in" user
               (locals_error "Invalid username or password")), w)) as H3.
  { unfold post_sign_in, passport_authenticate_local, bind. simpl.
    rewrite Hn1, Hp1, H1. done. }
  repeat split; [done|congruence|done|].
  rewrite H3. unfold post_sign_in, passport_authenticate_local, bind. simpl.
  rewrite Hn2, Hp2, H2. done.
Qed.

(** *** Restoring the identity of a session *)

Lemma deserializeUser_fault env id w e :
  deserialize_fault env = Some e ->
  deserializeUser env id w = (Returned (done_error e), w).
Proof. intros Hf. unfold deserializeUser. run. by rewrite Hf. Qed.

Lemma deserializeUser_no_fault env id w :
  deserialize_fault env = None ->
  deserializeUser env id w
  = (Returned match filter (fun u => user_id u = id) (users (db w)) with
              | [] => done_false tt
              | row :: _ => done_user row
              end, w).
Proof.
  intros Hf. unfold deserializeUser. run. rewrite Hf. simpl.
  destruct w as [d s]; simpl. by destruct (filter _ _).
Qed.

Lemma passport_session_no_fault env w :
  deserialize_fault env = None ->
  exists user s,
    passport_session env w = (Returned user, mkWorld (db w) s).
Proof.
  intros Hf. unfold passport_session, bind.
  destruct w as [d [id|]]; simpl; [|by eauto].
  rewrite deserializeUser_no_fault by done. simpl.
  destruct (filter _ _); simpl; eauto.
Qed.

(** C7: when the session names a user id that has no user record,
    [deserializeUser] calls [done(null, false)] and Passport treats the
    request as unauthenticated; [done(error)] is called exactly when the
    store fails, with the store's error. *)
Theorem deserialize_missing_user_is_unauthenticated env id w :
  id ∉ user_id <$> users (db w) ->
  (deserialize_fault env = None ->
     deserializeUser env id w = (Returned (done_false tt), w)
     /\ (session w = Some id ->
         passport_session env w = (Returned None, mkWorld (db w) None)))
  /\ (forall e w',
        deserializeUser env id w = (Returned (done_error e), w')
        <-> deserialize_fault env = Some e /\ w' = w)
  /\ (forall e w', deserializeUser env id w <> (Thrown e, w')).
Proof.
  intros Hid. split; [|split].
  - intros Hf.
    assert (deserializeUser env id w = (Returned (done_false tt), w)) as Hd.
    { rewrite deserializeUser_no_fault by done.
      by rewrite (filter_key_absent user_id). }
    split; [done|]. intros Hs. unfold passport_session, bind.
    by rewrite Hs, Hd.
  - intros e w'. destruct (deserialize_fault env) as [e0|] eqn:Hf.
    + rewrite (deserializeUser_fault env id w e0 Hf).
      split; [intros [= <- <-]; done|intros [[= <-] ->]; done].
    + rewrite deserializeUser_no_fault by done.
      rewrite (filter_key_absent user_id) by done.
      split; [intros [=]|intros [[=] _]].
  - intros e w'. destruct (deserialize_fault env) as [e0|] eqn:Hf.
    + by rewrite (deserializeUser_fault env id w e0 Hf).
    + by rewrite deserializeUser_no_fault.
Qed.

(** *** Reading posts *)

Lemma get_home_no_fault env req w :
  query_fault env = None ->
  get_home env req w
  = (Returned (render 200 "home" (req_user req)
                 (locals_posts (merge_sort id_desc (posts (db w))))), w).
Proof. intros Hq. unfold get_home. run. rewrite Hq. by destruct w. Qed.

(** C5: when the store query for the post list fails, GET / still renders
    the home page, with an empty list of posts, and nothing is changed;
    through the whole middleware chain the same holds as long as the
    session itself could be restored. *)
Theorem home_swallows_store_failure env req body w e :
  query_fault env = Some e ->
  get_home env req w
  = (Returned (render 200 "home" (req_user req) (locals_posts [])), w)
  /\ (deserialize_fault env = None ->
      exists user w',
        app bcrypt_hash bcrypt_compare int4_in env GET_home body w
        = (Returned (render 200 "home" user (locals_posts [])), w')
        /\ db w' = db w).
Proof.
  intros Hq.
  assert (forall r w0, get_home env r w0
            = (Returned (render 200 "home" (req_user r) (locals_posts [])),
               w0)) as Hhome.
  { intros r w0. unfold get_home. run. by rewrite Hq. }
  split; [apply Hhome|]. intros Hf.
  destruct (passport_session_no_fault env w Hf) as (user & s & Hs).
  exists user, (mkWorld (db w) s). unfold app. rewrite Hs. simpl.
  by rewrite Hhome.
Qed.

(** C8: GET /posts/:id answers 404 'Post not found' when the lookup finds
    no post with the given id, 500 when the store fails during the lookup
    (the query is rejected, or the parameter is refused by the store), and
    renders the post otherwise; the world is never changed. *)
Theorem view_post_responses env req id w :
  (forall n,
      query_fault env = None -> int4_in id = inl n ->
      n ∉ post_id <$> posts (db w) ->
      get_posts_id int4_in env req id w
      = (Returned (send 404 "Post not found"), w))
  /\ (forall e,
        query_fault env = Some e
        \/ (query_fault env = None /\ int4_in id = inr e) ->
        get_posts_id int4_in env req id w
        = (Returned (send 500 "Server error"), w))
  /\ (forall row,
        query_fault env = None -> int4_in id = inl (post_id row) ->
        NoDup (post_id <$> posts (db w)) -> row ∈ posts (db w) ->
        get_posts_id int4_in env req id w
        = (Returned (render 200 "post" (req_user req) (locals_post row)),
           w)).
Proof.
  split; [|split].
  - intros n Hq Hin Hn. unfold get_posts_id, select_posts_by_id. run.
    rewrite Hq, Hin. simpl. rewrite (filter_key_absent post_id) by done.
    by destruct w.
  - intros e [Hq|[Hq Hin]]; unfold get_posts_id, select_posts_by_id; run.
    + by rewrite Hq.
    + rewrite Hq, Hin. by destruct w.
  - intros row Hq Hin Hnd Hrow. unfold get_posts_id, select_posts_by_id.
    run. rewrite Hq, Hin. simpl.
    rewrite (filter_key_unique post_id) by done. by destruct w.
Qed.

(** *** The protected route *)

(** C6: a POST /write request without an authenticated identity is
    answered with a redirect to /sign-in and changes nothing: for a
    request on which [req.isAuthenticated()] is false, for a client whose
    session holds no user id, and for a session whose user id no longer
    resolves (only the stale id is dropped; the tables are untouched). *)
Theorem write_requires_authentication env body w :
  (forall req,
      isAuthenticated req = false ->
      route_handler bcrypt_hash bcrypt_compare int4_in env POST_write req w
      = (Returned (redirect "/sign-in"), w))
  /\ (session w = None ->
      app bcrypt_hash bcrypt_compare int4_in env POST_write body w
      = (Returned (redirect "/sign-in"), w))
  /\ (forall id,
        session w = Some id -> deserialize_fault env = None ->
        id ∉ user_id <$> users (db w) ->
        app bcrypt_hash bcrypt_compare int4_in env POST_write body w
        = (Returned (redirect "/sign-in"), mkWorld (db w) None)).
Proof.
  split; [|split].
  - intros req Hreq. simpl. unfold ensureAuthenticated. by rewrite Hreq.
  - intros Hs. unfold app, passport_session. by rewrite Hs.
  - intros id Hs Hf Hid. unfold app, passport_session, bind. rewrite Hs.
    rewrite deserializeUser_no_fault by done.
    by rewrite (filter_key_absent user_id).
Qed.

(** *** Registration *)

(** Every path of POST /register, for a submission with both fields. *)
Lemma post_register_eq env req w name pw :
  required (req_body req !! "username") = Some name ->
  required (req_body req !! "password") = Some pw ->
  post_register bcrypt_hash env req w
  = match bcrypt_hash pw 10 (salt env) with
    | Thrown e => (Returned (register_failure req e), w)
    | Returned h =>
        match db_query (query_fault env) (insert_user name h) w with
        | (Thrown e, w') => (Returned (register_failure req e), w')
        | (Returned [], w') => (Returned (register_failure req type_error), w')
        | (Returned (user :: _), w') =>
            match session_fault env with
            | Some _ => (Returned (redirect "/sign-in"), w')
            | None =>
                (Returned (redirect "/welcome.html"),
                 mkWorld (db w') (Some (new_id user)))
            end
        end
    end.
Proof.
  intros Hn Hp. unfold post_register. rewrite Hn, Hp.
  unfold bind, try_catch, settled, register_failure, ret, throw.
  destruct (bcrypt_hash pw 10 (salt env)) as [h|e];
    [|by destruct (decide _)].
  destruct (db_query _ _ w) as [[[|user rows]|e] w'];
    [by destruct (decide _)| |by destruct (decide _)].
  unfold req_login. by destruct (session_fault env).
Qed.

Lemma insert_user_fresh name h w :
  name ∉ user_username <$> users (db w) ->
  db_query None (insert_user name h) w
  = (Returned [mkNewUser (users_seq (db w)) name],
     mkWorld (mkDb (users (db w) ++ [mkUser (users_seq (db w)) name h])
                (users_seq (db w) + 1) (posts (db w)) (posts_seq (db w)))
       (session w)).
Proof.
  intros Hname. unfold db_query, insert_user. by rewrite decide_False.
Qed.

Lemma insert_user_taken name h w :
  name ∈ user_username <$> users (db w) ->
  db_query None (insert_user name h) w = (Thrown unique_violation, w).
Proof.
  intros Hname. unfold db_query, insert_user. rewrite decide_True by done.
  by destruct w.
Qed.

Lemma post_register_taken env req w name pw h :
  required (req_body req !! "username") = Some name ->
  required (req_body req !! "password") = Some pw ->
  bcrypt_hash pw 10 (salt env) = Returned h ->
  query_fault env = None ->
  name ∈ user_username <$> users (db w) ->
  post_register bcrypt_hash env req w
  = (Returned
       (redirect "/sign-in?error=Username already exists. Please sign in"),
     w).
Proof.
  intros Hn Hp Hh Hq Hname.
  rewrite (post_register_eq env req w name pw Hn Hp), Hh, Hq.
  by rewrite insert_user_taken.
Qed.

(** C2: registering a fresh username twice: the first registration
    creates the user row (and answers with the redirect of the automatic
    sign-in); on the second the store raises its duplicate-key error,
    which POST /register turns into the redirect to /sign-in with the
    'already exists' message, and the world is exactly what it was: no
    second row, and the first row with its hash is unchanged. *)
Theorem register_twice env1 env2 req1 req2 w name pw1 pw2 h1 h2 :
  required (req_body req1 !! "username") = Some name ->
  required (req_body req1 !! "password") = Some pw1 ->
  required (req_body req2 !! "username") = Some name ->
  required (req_body req2 !! "password") = Some pw2 ->
  bcrypt_hash pw1 10 (salt env1) = Returned h1 ->
  bcrypt_hash pw2 10 (salt env2) = Returned h2 ->
  query_fault env1 = None ->
  query_fault env2 = None ->
  name ∉ user_username <$> users (db w) ->
  exists w1,
    post_register bcrypt_hash env1 req1 w
    = (Returned (redirect match session_fault env1 with
                          | None => "/welcome.html"
                          | Some _ => "/sign-in"
                          end), w1)
    /\ users (db w1) = users (db w) ++ [mkUser (users_seq (db w)) name h1]
    /\ db_query (query_fault env2) (insert_user name h2) w1
       = (Thrown unique_violation, w1)
    /\ post_register bcrypt_hash env2 req2 w1
       = (Returned
            (redirect
               "/sign-in?error=Username already exists. Please sign in"),
          w1).
Proof.
  intros Hn1 Hp1 Hn2 Hp2 Hh1 Hh2 Hq1 Hq2 Hfresh.
  pose proof (post_register_eq env1 req1 w name pw1 Hn1 Hp1) as H1.
  rewrite Hh1, Hq1, insert_user_fresh in H1 by done.
  set (d1 := mkDb (users (db w) ++ [mkUser (users_seq (db w)) name h1])
               (users_seq (db w) + 1) (posts (db w)) (posts_seq (db w)))
    in H1.
  assert (forall s, name ∈ user_username <$> users (db (mkWorld d1 s)))
    as Htaken.
  { intros s. simpl. rewrite fmap_app. apply elem_of_app. right. left. }
  destruct (session_fault env1) as [e|].
  - exists (mkWorld d1 (session w)). split; [done|]. split; [done|].
    rewrite Hq2. split; [by apply insert_user_taken|].
    by apply (post_register_taken env2 req2 _ name pw2 h2).
  - exists (mkWorld d1 (Some (users_seq (db w)))). split; [done|].
    split; [done|]. rewrite Hq2. split; [by apply insert_user_taken|].
    by apply (post_register_taken env2 req2 _ name pw2 h2).
Qed.

Lemma insert_user_thrown fault name h w e :
  (db_query fault (insert_user name h) w).1 = Thrown e ->
  db_query fault (insert_user name h) w = (Thrown e, w).
Proof.
  unfold db_query, insert_user. destruct fault as [e0|]; simpl.
  - by intros [= ->].
  - destruct (decide _); simpl; [|done]. intros [= ->]. by destruct w.
Qed.

(** C3, as amended: for a POST /register submission with both fields, an
    error of hashing or of the insert whose code is not '23505' is
    answered with HTTP 500 and nothing is stored; a failure of the
    automatic sign-in, after the user row was created, is answered with a
    redirect to /sign-in; and there is no response besides these two, the
    duplicate-username redirect and the redirect of a successful
    registration. *)
Theorem register_failure_responses env req w name pw :
  required (req_body req !! "username") = Some name ->
  required (req_body req !! "password") = Some pw ->
  (forall e,
      code e <> Some "23505" ->
      bcrypt_hash pw 10 (salt env) = Thrown e
      \/ (exists h,
            bcrypt_hash pw 10 (salt env) = Returned h
            /\ (db_query (query_fault env) (insert_user name h) w).1
               = Thrown e) ->
      post_register bcrypt_hash env req w
      = (Returned (render 500 "register" (req_user req)
                     (locals_error "Internal server error.")), w))
  /\ (forall h e,
        bcrypt_hash pw 10 (salt env) = Returned h ->
        query_fault env = None ->
        name ∉ user_username <$> users (db w) ->
        session_fault env = Some e ->
        post_register bcrypt_hash env req w
        = (Returned (redirect "/sign-in"),
           mkWorld
             (mkDb (users (db w) ++ [mkUser (users_seq (db w)) name h])
                (users_seq (db w) + 1) (posts (db w)) (posts_seq (db w)))
             (session w)))
  /\ (exists r w',
        post_register bcrypt_hash env req w = (Returned r, w')
        /\ (r = redirect "/welcome.html"
            \/ r = redirect
                     "/sign-in?error=Username already exists. Please sign in"
            \/ r = redirect "/sign-in"
            \/ r = render 500 "register" (req_user req)
                     (locals_error "Internal server error."))).
Proof.
  intros Hn Hp. rewrite (post_register_eq env req w name pw Hn Hp).
  split; [|split].
  - intros e He [Hh|(h & Hh & Hi)]; rewrite Hh.
    + unfold register_failure. by rewrite decide_False.
    + rewrite (insert_user_thrown _ _ _ _ _ Hi).
      unfold register_failure. by rewrite decide_False.
  - intros h e Hh Hq Hfresh Hs. rewrite Hh, Hq, insert_user_fresh by done.
    by rewrite Hs.
  - destruct (bcrypt_hash pw 10 (salt env)) as [h|e].
    + destruct (db_query _ _ w) as [[[|user rows]|e] w'].
      * eexists _, _. split; [done|]. unfold register_failure. simpl. auto.
      * destruct (session_fault env); eexists _, _; split; eauto.
      * eexists _, _. split; [done|]. unfold register_failure.
        destruct (decide _); auto.
    + eexists _, _. split; [done|]. unfold register_failure.
      destruct (decide _); auto.
Qed.

(** *** Required fields *)

Lemma post_register_falsy hash env req w :
  truthy (req_body req !! "username") = false
  \/ truthy (req_body req !! "password") = false ->
  post_register hash env req w
  = (Returned (render 400 "register" (req_user req)
                 (locals_error "Username and password are required.")), w).
Proof.
  rewrite <- !required_truthy. unfold post_register.
  intros [->| ->]; [done|]. by destruct (required _).
Qed.

Lemma post_write_falsy env req w :
  truthy (req_body req !! "title") = false
  \/ truthy (req_body req !! "content") = false ->
  post_write env req w
  = (Returned (render 400 "write" (req_user req)
                 (locals_write (Some "Title and content are required.")
                    None)), w).
Proof.
  rewrite <- !required_truthy. unfold post_write.
  intros [->| ->]; [done|]. by destruct (required _).
Qed.

(** C10: the required-field checks of POST /register and POST /write are
    falsiness checks.  A submission with a falsy field -- absent or the
    empty string -- gets the 400 page whatever the hasher, the store and
    the tables are, and leaves the world as it was (nothing is hashed,
    queried or inserted); and putting the empty string in a field gives
    exactly what removing the field gives. *)
Theorem falsy_field_is_bad_request env req w :
  (forall hash env',
      truthy (req_body req !! "username") = false
      \/ truthy (req_body req !! "password") = false ->
      post_register hash env' req w
      = (Returned (render 400 "register" (req_user req)
                     (locals_error "Username and password are required.")),
         w))
  /\ (forall env',
        truthy (req_body req !! "title") = false
        \/ truthy (req_body req !! "content") = false ->
        post_write env' req w
        = (Returned (render 400 "write" (req_user req)
                       (locals_write
                          (Some "Title and content are required.") None)),
           w))
  /\ truthy (Some "") = truthy None
  /\ (forall key body,
        key = "username" \/ key = "password" ->
        post_register bcrypt_hash env
          (mkRequest (<[key:=""]> body) (req_user req)) w
        = post_register bcrypt_hash env
            (mkRequest (delete key body) (req_user req)) w)
  /\ (forall key body,
        key = "title" \/ key = "content" ->
        post_write env (mkRequest (<[key:=""]> body) (req_user req)) w
        = post_write env (mkRequest (delete key body) (req_user req)) w).
Proof.
  split; [|split; [|split; [done|split]]].
  - intros hash env'. apply post_register_falsy.
  - intros env'. apply post_write_falsy.
  - intros key body [-> | ->].
    + rewrite !post_register_falsy; [done|left|left]; simpl.
      * by rewrite lookup_delete_eq.
      * by rewrite lookup_insert_eq.
    + rewrite !post_register_falsy; [done|right|right]; simpl.
      * by rewrite lookup_delete_eq.
      * by rewrite lookup_insert_eq.
  - intros key body [-> | ->].
    + rewrite !post_write_falsy; [done|left|left]; simpl.
      * by rewrite lookup_delete_eq.
      * by rewrite lookup_insert_eq.
    + rewrite !post_write_falsy; [done|right|right]; simpl.
      * by rewrite lookup_delete_eq.
      * by rewrite lookup_insert_eq.
Qed.

(** *** The invariant of the tables *)

Lemma db_wf_empty : db_wf empty_db.
Proof. split; simpl; constructor. Qed.

Lemma db_wf_insert_post title content author d :
  db_wf d -> db_wf (insert_post title content author d).2.
Proof.
  intros [Hn Hu Hp Hpn]. split; simpl; [done..| |].
  - apply Forall_app. split.
    + eapply Forall_impl; [exact Hp|]. simpl. intros; lia.
    + repeat constructor. simpl. lia.
  - rewrite fmap_app. apply NoDup_app. split; [done|]. split.
    + intros n (q & -> & Hq)%list_elem_of_fmap
        [Heq|[]%elem_of_nil]%elem_of_cons.
      rewrite Forall_forall in Hp. specialize (Hp q Hq). simpl in Hp, Heq.
      lia.
    + simpl. apply NoDup_singleton.
Qed.

Lemma db_wf_insert_user name hash d :
  db_wf d -> db_wf (insert_user name hash d).2.
Proof.
  intros [Hn Hu Hp Hpn]. unfold insert_user.
  destruct (decide _) as [|Hfresh]; [done|]. split; simpl; [| |done..].
  - rewrite fmap_app. apply NoDup_app. split; [done|]. split.
    + intros n Hin [->|[]%elem_of_nil]%elem_of_cons. done.
    + simpl. apply NoDup_singleton.
  - apply Forall_app. split.
    + eapply Forall_impl; [exact Hu|]. simpl. intros; lia.
    + repeat constructor. simpl. lia.
Qed.

Lemma passport_session_db env w :
  db (passport_session env w).2 = db w.
Proof.
  unfold passport_session. destruct (session w) as [id|]; [|done].
  unfold deserializeUser. run.
  destruct (deserialize_fault env); simpl; [done|].
  by destruct (filter _ _).
Qed.

(** Every request keeps the unique constraint and the counters. *)
Lemma route_handler_preserves_db_wf env route req w :
  db_wf (db w) ->
  db_wf (db (route_handler bcrypt_hash bcrypt_compare int4_in
               env route req w).2).
Proof.
  intros Hwf. destruct route; simpl;
    unfold get_home, get_posts_id, select_posts_by_id, get_about,
      get_register, post_register, get_sign_in, post_sign_in,
      passport_authenticate_local, LocalStrategy, post_sign_out,
      ensureAuthenticated, isAuthenticated, get_write, post_write,
      get_welcome, req_login, req_logout; run.
  - by destruct (query_fault env).
  - destruct (query_fault env); simpl; [done|].
    destruct (int4_in id); simpl; [|done]. by destruct (filter _ _).
  - done.
  - done.
  - destruct (required _) as [name|]; [|done].
    destruct (required _) as [pw|]; [|done].
    destruct (bcrypt_hash pw 10 (salt env)) as [h|e]; simpl;
      [|by destruct (decide _)].
    destruct (query_fault env); simpl; [by destruct (decide _)|].
    pose proof (db_wf_insert_user name h (db w) Hwf) as Hwf'.
    destruct (insert_user name h (db w)) as [[[|user rows]|e] d'];
      simpl in *.
    + done.
    + by destruct (session_fault env).
    + by destruct (decide _).
  - by destruct (req_user req).
  - destruct (required _) as [name|]; [|done].
    destruct (required _) as [pw|]; [|done].
    destruct (query_fault env); simpl; [done|].
    destruct (filter _ _) as [|row rows]; simpl; [done|].
    destruct (bcrypt_compare pw (user_password row)) as [[]|]; simpl;
      [|done..].
    by destruct (session_fault env).
  - by destruct (session_fault env).
  - by destruct (req_user req).
  - destruct (req_user req) as [user|]; [|done].
    destruct (required _) as [title|]; [|done].
    destruct (required _) as [content|]; [|done]. simpl.
    destruct (query_fault env); simpl; [done|].
    apply (db_wf_insert_post title content (user_username user) _ Hwf).
  - done.
Qed.

Lemma app_preserves_db_wf env route body w :
  db_wf (db w) ->
  db_wf (db (app bcrypt_hash bcrypt_compare int4_in env route body w).2).
Proof.
  intros Hwf. unfold app.
  pose proof (passport_session_db env w) as Hdb.
  destruct (passport_session env w) as [[user|e] w']; simpl in *.
  - apply route_handler_preserves_db_wf. by rewrite Hdb.
  - by rewrite Hdb.
Qed.

(** *** Writing and listing posts *)

Lemma post_write_creates env req w user title content :
  submits env req user title content ->
  route_handler bcrypt_hash bcrypt_compare int4_in env POST_write req w
  = (Returned (render 200 "write" (Some user)
                 (locals_write None (Some "Post created successfully!"))),
     mkWorld
       (mkDb (users (db w)) (users_seq (db w))
          (posts (db w)
             ++ [mkPost (posts_seq (db w)) title content
                   (user_username user)])
          (posts_seq (db w) + 1))
       (session w)).
Proof.
  intros (Hq & Hu & Ht & Hc). simpl.
  unfold ensureAuthenticated, isAuthenticated, post_write.
  rewrite Hu, Ht, Hc. run. by rewrite Hq.
Qed.

Lemma listing_after_write d title content author :
  db_wf d ->
  merge_sort id_desc (posts (insert_post title content author d).2)
  = mkPost (posts_seq d) title content author
    :: merge_sort id_desc (posts d).
Proof.
  intros [_ _ Hp Hpn]. simpl. by apply merge_sort_newest.
Qed.

(** C4: GET / lists the posts by descending id.  In every state of the
    tables, and whatever the store does, the rendered sequence is sorted
    by descending id, and it holds exactly the rows of the table when the
    query succeeds; and after three posts A, B, C are written in that
    order the listing starts with C, B, A, followed by what was listed
    before (nothing, on an empty table). *)
Theorem home_lists_newest_first env req w :
  (exists rows,
      get_home env req w
      = (Returned (render 200 "home" (req_user req) (locals_posts rows)), w)
      /\ StronglySorted id_desc rows
      /\ (query_fault env = None -> rows ≡ₚ posts (db w)))
  /\ (forall envA reqA uA tA cA envB reqB uB tB cB envC reqC uC tC cC,
        db_wf (db w) ->
        query_fault env = None ->
        submits envA reqA uA tA cA ->
        submits envB reqB uB tB cB ->
        submits envC reqC uC tC cC ->
        let n := posts_seq (db w) in
        let A := mkPost n tA cA (user_username uA) in
        let B := mkPost (n + 1) tB cB (user_username uB) in
        let C := mkPost (n + 2) tC cC (user_username uC) in
        exists rA wA rB wB rC wC,
          route_handler bcrypt_hash bcrypt_compare int4_in
            envA POST_write reqA w = (Returned rA, wA)
          /\ route_handler bcrypt_hash bcrypt_compare int4_in
               envB POST_write reqB wA = (Returned rB, wB)
          /\ route_handler bcrypt_hash bcrypt_compare int4_in
               envC POST_write reqC wB = (Returned rC, wC)
          /\ get_home env req wC
             = (Returned
                  (render 200 "home" (req_user req)
                     (locals_posts
                        (C :: B :: A
                           :: merge_sort id_desc (posts (db w))))),
                wC)).
Proof.
  split.
  - destruct (query_fault env) as [e|] eqn:Hq.
    + exists []. split; [|split; [constructor|done]].
      unfold get_home. run. by rewrite Hq.
    + exists (merge_sort id_desc (posts (db w))).
      split; [by apply get_home_no_fault|]. split.
      * apply StronglySorted_merge_sort; apply _.
      * intros _. apply merge_sort_Permutation.
  - intros envA reqA uA tA cA envB reqB uB tB cB envC reqC uC tC cC
      Hwf Hq HA HB HC n A B C.
    pose proof (db_wf_insert_post tA cA (user_username uA) _ Hwf) as HwfA.
    pose proof (db_wf_insert_post tB cB (user_username uB) _ HwfA) as HwfB.
    eexists _, _, _, _, _, _.
    split; [by apply post_write_creates|].
    split; [by apply post_write_creates|].
    split; [by apply post_write_creates|].
    rewrite get_home_no_fault by done. simpl. do 4 f_equal.
    pose proof (listing_after_write _ tC cC (user_username uC) HwfB) as LC.
    pose proof (listing_after_write _ tB cB (user_username uB) HwfA) as LB.
    pose proof (listing_after_write _ tA cA (user_username uA) Hwf) as LA.
    simpl in LA, LB, LC. rewrite LC, LB, LA. subst A B C n.
    by replace (posts_seq (db w) + 1 + 1) with (posts_seq (db w) + 2)
      by lia.
Qed.

End Properties.

(** * Further properties of the handlers *)

(** Rows in creation order: ids strictly increasing along the table. *)
Lemma merge_sort_ascending (l : list Post) :
  StronglySorted (fun p q => post_id p < post_id q) l ->
  merge_sort id_desc l = reverse l.
Proof.
  induction l as [|p l IH] using rev_ind; intros Hl; [done|].
  apply StronglySorted_app in Hl as (Hlt & Hl & _).
  rewrite reverse_snoc, <- IH by done. apply merge_sort_newest.
  - apply Forall_forall. intros q Hq. apply Hlt; [done|left].
  - clear IH Hlt. induction Hl as [|q l Hl IHl Hq]; [constructor|].
    rewrite fmap_cons. apply NoDup_cons. split; [|done].
    intros (q' & Heq & Hin)%list_elem_of_fmap.
    rewrite Forall_forall in Hq. specialize (Hq q' Hin). simpl in Hq. lia.
Qed.

Section Handlers.

Set Default Proof Using "Type".

Variable bcrypt_hash : string -> Z -> string -> Outcome string.
Variable bcrypt_compare : string -> string -> Outcome bool.
Variable int4_in : string -> Z + JsError.

(** ** Signing in *)

Lemma LocalStrategy_eq env name pw w :
  LocalStrategy bcrypt_compare env name pw w
  = match query_fault env with
    | Some e => (Returned (done_error e), w)
    | None =>
        match filter (fun u => user_username u = name) (users (db w)) with
        | [] => (Returned (done_false "Invalid username or password"), w)
        | user :: _ =>
            match bcrypt_compare pw (user_password user) with
            | Returned true => (Returned (done_user user), w)
            | Returned false =>
                (Returned (done_false "Invalid username or password"), w)
            | Thrown e => (Returned (done_error e), w)
            end
        end
    end.
Proof.
  unfold LocalStrategy. run. destruct (query_fault env); simpl; [done|].
  destruct w as [d s]; simpl. destruct (filter _ _) as [|user rows]; [done|].
  simpl. by destruct (bcrypt_compare pw (user_password user)) as [[]|].
Qed.

Lemma LocalStrategy_done_user env name pw w user w' :
  LocalStrategy bcrypt_compare env name pw w = (Returned (done_user user), w')
  -> query_fault env = None
     /\ user ∈ users (db w)
     /\ user_username user = name
     /\ bcrypt_compare pw (user_password user) = Returned true
     /\ w' = w.
Proof.
  rewrite LocalStrategy_eq. destruct (query_fault env); [done|].
  destruct (filter _ _) as [|row rows] eqn:Hf; [done|].
  destruct (bcrypt_compare pw (user_password row)) as [[]|] eqn:Hc; [|done..].
  intros [= <- <-].
  assert (row ∈ filter (fun u => user_username u = name) (users (db w)))
    as Hrow by (rewrite Hf; left).
  apply list_elem_of_filter in Hrow as [Hname Hin]. done.
Qed.

(** X1: the verify function hands a user to Passport only when the store
    answered, the user is a row of [users] with the submitted username, and
    [bcrypt.compare] of the submitted password with that row's hash
    returned true; it changes nothing. *)
Theorem LocalStrategy_authenticates_only_on_match env name pw w user w' :
  LocalStrategy bcrypt_compare env name pw w = (Returned (done_user user), w')
  -> query_fault env = None
     /\ user ∈ users (db w)
     /\ user_username user = name
     /\ bcrypt_compare pw (user_password user) = Returned true
     /\ w' = w.
Proof. apply LocalStrategy_done_user. Qed.

(** X2: POST /sign-in with the username of a user row and a password that
    [bcrypt.compare] accepts for the row's hash, the store and the session
    store not failing, answers with the redirect to /welcome and binds the
    session to the id of that row; the tables are unchanged. *)
Theorem sign_in_establishes_session env body current w row pw :
  query_fault env = None ->
  session_fault env = None ->
  NoDup (user_username <$> users (db w)) ->
  row ∈ users (db w) ->
  required (body !! "username") = Some (user_username row) ->
  required (body !! "password") = Some pw ->
  bcrypt_compare pw (user_password row) = Returned true ->
  post_sign_in bcrypt_compare env (mkRequest body current) w
  = (Returned (redirect "/welcome"), mkWorld (db w) (Some (user_id row))).
Proof.
  intros Hq Hs Hnd Hrow Hn Hp Hc.
  unfold post_sign_in, passport_authenticate_local, bind. simpl.
  rewrite Hn, Hp, LocalStrategy_eq, Hq.
  rewrite (filter_key_unique user_username) by done. rewrite Hc.
  unfold req_login. by rewrite Hs.
Qed.



(** ** Signing out *)


(** ** The identity kept in the session *)

(** X6: [deserializeUser] undoes [serializeUser]: for a row of [users],
    ids being unique and the store not failing, deserializing the id that
    [serializeUser] keeps in the session gives back exactly that row. *)
Theorem deserialize_serialize_round_trip env w row :
  deserialize_fault env = None ->
  NoDup (user_id <$> users (db w)) ->
  row ∈ users (db w) ->
  deserializeUser env (serializeUser row) w = (Returned (done_user row), w).
Proof.
  intros Hf Hnd Hrow. rewrite deserializeUser_no_fault by done.
  unfold serializeUser, id_of, User_HasId.
  by rewrite (filter_key_unique user_id).
Qed.

(** X7: when the store fails while the identity of a session is restored,
    the request ends at [next] with the store's error whatever the route
    is -- also on the public pages, and on GET / whose own query failure
    would have been swallowed -- and nothing is changed. *)
Theorem session_restore_failure_ends_request env route body w id e :
  session w = Some id ->
  deserialize_fault env = Some e ->
  app bcrypt_hash bcrypt_compare int4_in env route body w
  = (Returned (next_error e), w).
Proof.
  intros Hs Hf. unfold app, passport_session, bind. rewrite Hs.
  by rewrite (deserializeUser_fault env id w e Hf).
Qed.

(** ** Registration *)

Lemma post_register_fresh env req w name pw h :
  required (req_body req !! "username") = Some name ->
  required (req_body req !! "password") = Some pw ->
  bcrypt_hash pw 10 (salt env) = Returned h ->
  query_fault env = None ->
  session_fault env = None ->
  name ∉ user_username <$> users (db w) ->
  post_register bcrypt_hash env req w
  = (Returned (redirect "/welcome.html"),
     mkWorld
       (mkDb (users (db w) ++ [mkUser (users_seq (db w)) name h])
          (users_seq (db w) + 1) (posts (db w)) (posts_seq (db w)))
       (Some (users_seq (db w)))).
Proof.
  intros Hn Hp Hh Hq Hs Hfresh.
  rewrite (post_register_eq bcrypt_hash env req w name pw Hn Hp), Hh, Hq.
  rewrite insert_user_fresh by done. by rewrite Hs.
Qed.

(** X8: a registered user can sign in.  After a successful POST /register
    of a fresh username, POST /sign-in with the same username and password
    succeeds -- redirect to /welcome, session bound to the new user's id --
    provided [bcrypt.compare] accepts the password for the hash that
    [bcrypt.hash] returned at registration. *)
Theorem register_then_sign_in env1 env2 req1 body2 current w name pw h :
  required (req_body req1 !! "username") = Some name ->
  required (req_body req1 !! "password") = Some pw ->
  bcrypt_hash pw 10 (salt env1) = Returned h ->
  query_fault env1 = None ->
  session_fault env1 = None ->
  name ∉ user_username <$> users (db w) ->
  required (body2 !! "username") = Some name ->
  required (body2 !! "password") = Some pw ->
  bcrypt_compare pw h = Returned true ->
  query_fault env2 = None ->
  session_fault env2 = None ->
  exists w1,
    post_register bcrypt_hash env1 req1 w
    = (Returned (redirect "/welcome.html"), w1)
    /\ forall s,
         post_sign_in bcrypt_compare env2 (mkRequest body2 current)
           (mkWorld (db w1) s)
         = (Returned (redirect "/welcome"),
            mkWorld (db w1) (Some (users_seq (db w)))).
Proof.
  intros Hn1 Hp1 Hh Hq1 Hs1 Hfresh Hn2 Hp2 Hc Hq2 Hs2.
  eexists. split; [by apply (post_register_fresh env1 req1 w name pw h)|].
  intros s. unfold post_sign_in, passport_authenticate_local, bind. simpl.
  rewrite Hn2, Hp2, LocalStrategy_eq, Hq2. simpl.
  rewrite filter_app, (filter_key_absent user_username) by done.
  rewrite filter_cons_True by done. simpl. rewrite Hc.
  unfold req_login. by rewrite Hs2.
Qed.

(** X9: the automatic sign-in of POST /register.  After a successful
    registration the session holds the id of the new row, and on the
    client's next request Passport restores from it exactly the row that
    was inserted: the new id, the username and the hash. *)
Theorem register_then_session_restores_user env env' req w name pw h :
  Forall (fun u => user_id u < users_seq (db w)) (users (db w)) ->
  required (req_body req !! "username") = Some name ->
  required (req_body req !! "password") = Some pw ->
  bcrypt_hash pw 10 (salt env) = Returned h ->
  query_fault env = None ->
  session_fault env = None ->
  name ∉ user_username <$> users (db w) ->
  deserialize_fault env' = None ->
  exists w1,
    post_register bcrypt_hash env req w
    = (Returned (redirect "/welcome.html"), w1)
    /\ session w1 = Some (users_seq (db w))
    /\ passport_session env' w1
       = (Returned (Some (mkUser (users_seq (db w)) name h)), w1).
Proof.
  intros Hids Hn Hp Hh Hq Hs Hfresh Hf.
  eexists. split; [by apply (post_register_fresh env req w name pw h)|].
  split; [done|]. unfold passport_session, bind. simpl.
  rewrite deserializeUser_no_fault by done. simpl.
  rewrite filter_app, (filter_key_absent user_id).
  - by rewrite filter_cons_True.
  - intros (u & Hid & Hu)%list_elem_of_fmap.
    rewrite Forall_forall in Hids. specialize (Hids u Hu). simpl in Hids.
    lia.
Qed.

(** ** Writing and viewing posts *)

(** X10: POST /write of a signed-in client, through the whole chain: the
    session id resolves to a user row, both fields are present.  If the
    store accepts the insert, the success page is rendered and one post
    row is added, with the next id of the table and the username of the
    signed-in user as author; if the insert fails, the 500 page is
    rendered and nothing is stored.  The session is kept either way. *)
Theorem write_as_signed_in_user env body w row title content :
  session w = Some (user_id row) ->
  deserialize_fault env = None ->
  NoDup (user_id <$> users (db w)) ->
  row ∈ users (db w) ->
  required (body !! "title") = Some title ->
  required (body !! "content") = Some content ->
  app bcrypt_hash bcrypt_compare int4_in env POST_write body w
  = match query_fault env with
    | None =>
        (Returned (render 200 "write" (Some row)
                     (locals_write None (Some "Post created successfully!"))),
         mkWorld
           (mkDb (users (db w)) (users_seq (db w))
              (posts (db w)
                 ++ [mkPost (posts_seq (db w)) title content
                       (user_username row)])
              (posts_seq (db w) + 1))
           (session w))
    | Some _ =>
        (Returned (render 500 "write" (Some row)
                     (locals_write (Some "Internal server error.") None)), w)
    end.
Proof.
  intros Hs Hf Hnd Hrow Ht Hc. unfold app, passport_session, bind.
  rewrite Hs, deserializeUser_no_fault by done.
  rewrite (filter_key_unique user_id) by done. simpl.
  unfold ensureAuthenticated, isAuthenticated, post_write. simpl.
  rewrite Ht, Hc. run. destruct (query_fault env); [done|].
  simpl. by rewrite Hs.
Qed.

(** X11: a post that was written can be viewed.  After a successful
    POST /write, GET /posts/:id with the id the store gave the new row
    renders exactly that post: the submitted title and content and the
    username of the author. *)
Theorem written_post_can_be_viewed env req w user title content env' req' id :
  Forall (fun p => post_id p < posts_seq (db w)) (posts (db w)) ->
  submits env req user title content ->
  query_fault env' = None ->
  int4_in id = inl (posts_seq (db w)) ->
  exists r w1,
    route_handler bcrypt_hash bcrypt_compare int4_in env POST_write req w
    = (Returned r, w1)
    /\ get_posts_id int4_in env' req' id w1
       = (Returned (render 200 "post" (req_user req')
                      (locals_post
                         (mkPost (posts_seq (db w)) title content
                            (user_username user)))), w1).
Proof.
  intros Hids Hsub Hq Hid. eexists _, _.
  split; [by apply post_write_creates|].
  unfold get_posts_id, select_posts_by_id. run. rewrite Hq, Hid. simpl.
  rewrite filter_app, (filter_key_absent post_id).
  - by rewrite filter_cons_True.
  - intros (p & Hp & Hin)%list_elem_of_fmap.
    rewrite Forall_forall in Hids. specialize (Hids p Hin). simpl in Hids.
    lia.
Qed.

(** X12: GET /posts/:id renders only what is stored: a rendered post is a
    row of [posts] whose id is the integer the store read from the
    parameter, the query did not fail, and nothing was changed. *)
Theorem view_post_renders_stored_row env req id w status view user row w' :
  get_posts_id int4_in env req id w
  = (Returned (render status view user (locals_post row)), w') ->
  query_fault env = None
  /\ row ∈ posts (db w)
  /\ int4_in id = inl (post_id row)
  /\ w' = w.
Proof.
  unfold get_posts_id, select_posts_by_id. run.
  destruct (query_fault env); simpl; [done|].
  destruct (int4_in id) as [n|e]; simpl; [|done].
  destruct (filter _ _) as [|p rows] eqn:Hf; simpl; [done|].
  intros [= _ _ _ <- <-].
  assert (p ∈ filter (fun q => post_id q = n) (posts (db w))) as Hp
    by (rewrite Hf; left).
  apply list_elem_of_filter in Hp as [<- Hin]. by destruct w.
Qed.

(** ** What a request can do to the tables *)

(** Unfolds every route down to the monad's primitives. *)
Ltac unfold_routes :=
  unfold get_home, get_posts_id, select_posts_by_id, get_about,
    get_register, post_register, get_sign_in, post_sign_in,
    passport_authenticate_local, LocalStrategy, post_sign_out,
    ensureAuthenticated, isAuthenticated, get_write, post_write,
    get_welcome, req_login, req_logout; run.

(** A route leaves the tables alone, or it is POST /register adding one
    user row with a fresh username, or POST /write adding one post row. *)
Lemma route_handler_db_cases env route req w :
  let w' := (route_handler bcrypt_hash bcrypt_compare int4_in
               env route req w).2 in
  db w' = db w
  \/ (route = POST_register
      /\ exists name h,
           (name ∉ user_username <$> users (db w))
           /\ db w'
              = mkDb (users (db w) ++ [mkUser (users_seq (db w)) name h])
                  (users_seq (db w) + 1) (posts (db w)) (posts_seq (db w)))
  \/ (route = POST_write
      /\ exists user title content,
           req_user req = Some user
           /\ db w'
              = mkDb (users (db w)) (users_seq (db w))
                  (posts (db w)
                     ++ [mkPost (posts_seq (db w)) title content
                           (user_username user)])
                  (posts_seq (db w) + 1)).
Proof.
  destruct route; simpl; unfold_routes.
  - left. by destruct (query_fault env).
  - left. destruct (query_fault env); simpl; [done|].
    destruct (int4_in id); simpl; [|done]. by destruct (filter _ _).
  - by left.
  - by left.
  - destruct (required _) as [name|]; [|by left].
    destruct (required _) as [pw|]; [|by left].
    destruct (bcrypt_hash pw 10 (salt env)) as [h|e]; simpl;
      [|left; by destruct (decide _)].
    destruct (query_fault env); simpl; [left; by destruct (decide _)|].
    unfold insert_user. destruct (decide (name ∈ _)) as [|Hfresh]; simpl.
    + by left.
    + right. left. split; [done|]. exists name, h.
      by destruct (session_fault env).
  - left. by destruct (req_user req).
  - left. destruct (required _) as [name|]; [|done].
    destruct (required _) as [pw|]; [|done].
    destruct (query_fault env); simpl; [done|].
    destruct (filter _ _) as [|row rows]; simpl; [done|].
    destruct (bcrypt_compare pw (user_password row)) as [[]|]; simpl;
      [|done..].
    by destruct (session_fault env).
  - left. by destruct (session_fault env).
  - left. by destruct (req_user req).
  - destruct (req_user req) as [user|] eqn:Hu; [|by left].
    destruct (required _) as [title|]; [|by left].
    destruct (required _) as [content|]; [|by left]. simpl.
    destruct (query_fault env); simpl; [by left|].
    right. right. split; [done|]. by exists user, title, content.
  - by left.
Qed.

Lemma app_db_cases env route body w :
  let w' := (app bcrypt_hash bcrypt_compare int4_in env route body w).2 in
  db w' = db w
  \/ (route = POST_register
      /\ exists name h,
           (name ∉ user_username <$> users (db w))
           /\ db w'
              = mkDb (users (db w) ++ [mkUser (users_seq (db w)) name h])
                  (users_seq (db w) + 1) (posts (db w)) (posts_seq (db w)))
  \/ (route = POST_write
      /\ exists author title content,
           db w'
           = mkDb (users (db w)) (users_seq (db w))
               (posts (db w)
                  ++ [mkPost (posts_seq (db w)) title content author])
               (posts_seq (db w) + 1)).
Proof.
  unfold app. pose proof (passport_session_db env w) as Hdb.
  destruct (passport_session env w) as [[user|e] w1]; simpl in *;
    [|by left].
  pose proof (route_handler_db_cases env route (mkRequest body user) w1)
    as H.
  simpl in H. rewrite !Hdb in H.
  destruct H as [H|[(Hr & name & h & Hfresh & H)
                   |(Hr & u & title & content & _ & H)]].
  - by left.
  - right. left. split; [done|]. by exists name, h.
  - right. right. split; [done|]. by exists (user_username u), title, content.
Qed.

(** X13: the tables are append-only.  Whatever the request, the rows of
    [users] and [posts] before it are still there, unchanged and in place,
    after it; only POST /register can add a user row and only POST /write
    can add a post row, one at a time. *)
Theorem tables_are_append_only env route body w :
  let w' := (app bcrypt_hash bcrypt_compare int4_in env route body w).2 in
  users (db w) `prefix_of` users (db w')
  /\ posts (db w) `prefix_of` posts (db w')
  /\ (route <> POST_register -> users (db w') = users (db w))
  /\ (route <> POST_write -> posts (db w') = posts (db w))
  /\ (length (users (db w')) <= length (users (db w)) + 1)%nat
  /\ (length (posts (db w')) <= length (posts (db w)) + 1)%nat.
Proof.
  intros w'. subst w'.
  destruct (app_db_cases env route body w)
    as [H|[(Hr & name & h & _ & H)|(Hr & a & t & c & H)]]; rewrite H; simpl.
  - repeat split; try done; lia.
  - rewrite length_app. simpl.
    repeat split; try done; try lia; by apply prefix_app_r.
  - rewrite length_app. simpl.
    repeat split; try done; try lia; by apply prefix_app_r.
Qed.

(** X14: the invariant of the tables.  From the empty tables, after any
    sequence of requests -- whatever the store, the session store and
    bcrypt do -- usernames are unique, user ids and post ids are unique,
    and every id is below the counter of its table. *)
Theorem served_tables_are_well_formed requests s :
  let w := serve bcrypt_hash bcrypt_compare int4_in requests
             (mkWorld empty_db s) in
  db_wf (db w) /\ NoDup (user_id <$> users (db w)).
Proof.
  simpl.
  assert (forall reqs w0,
            db_wf (db w0) /\ NoDup (user_id <$> users (db w0)) ->
            db_wf (db (serve bcrypt_hash bcrypt_compare int4_in reqs w0))
            /\ NoDup (user_id <$> users
                        (db (serve bcrypt_hash bcrypt_compare int4_in
                               reqs w0)))) as Hinv.
  { induction reqs as [|[[env route] body] reqs IH]; intros w0 [Hwf Hnd];
      [done|].
    simpl. apply IH. split.
    - by apply app_preserves_db_wf.
    - destruct (app_db_cases env route body w0)
        as [H|[(Hr & name & h & _ & H)|(Hr & a & t & c & H)]];
        rewrite H; simpl; [done| |done].
      rewrite fmap_app. apply NoDup_app. split; [done|]. split.
      + intros n (u & -> & Hu)%list_elem_of_fmap
          [Heq|[]%elem_of_nil]%elem_of_cons.
        destruct Hwf as [_ Hids _ _]. rewrite Forall_forall in Hids.
        specialize (Hids u Hu). simpl in Hids, Heq. lia.
      + simpl. apply NoDup_singleton. }
  apply Hinv. split; [apply db_wf_empty|]. simpl. constructor.
Qed.

(** X15: GET / lists the posts in reverse order of creation.  In any state
    reached from the empty tables by any sequence of requests, when the
    query succeeds the rendered list is the table of posts read backwards:
    the post written last comes first. *)
Theorem home_lists_in_reverse_creation_order requests s env req :
  query_fault env = None ->
  let w := serve bcrypt_hash bcrypt_compare int4_in requests
             (mkWorld empty_db s) in
  get_home env req w
  = (Returned (render 200 "home" (req_user req)
                 (locals_posts (reverse (posts (db w))))), w).
Proof.
  intros Hq w. rewrite get_home_no_fault by done. do 4 f_equal.
  apply merge_sort_ascending. subst w.
  assert (forall reqs w0,
            db_wf (db w0) ->
            StronglySorted (fun p q => post_id p < post_id q)
              (posts (db w0)) ->
            StronglySorted (fun p q => post_id p < post_id q)
              (posts (db (serve bcrypt_hash bcrypt_compare int4_in
                            reqs w0)))) as Hinv.
  { induction reqs as [|[[env0 route] body] reqs IH]; intros w0 Hwf Hs;
      [done|].
    simpl. apply IH; [by apply app_preserves_db_wf|].
    destruct (app_db_cases env0 route body w0)
      as [H|[(Hr & name & h & _ & H)|(Hr & a & t & c & H)]];
      rewrite H; simpl; [done..|].
    apply StronglySorted_app. split; [|split; [done|]].
    - intros p q Hp ->%list_elem_of_singleton. simpl.
      destruct Hwf as [_ _ Hids _]. rewrite Forall_forall in Hids.
      apply (Hids p Hp).
    - repeat constructor. }
  apply Hinv; [apply db_wf_empty|constructor].
Qed.

(** ** What a request can do to the session *)

(** X16: a request binds the session to a user id only by POST /sign-in or
    POST /register; after any other request the session is what it was, or
    it holds no user id (sign-out, or a stale id dropped). *)
Theorem session_is_bound_only_by_sign_in_and_register env route body w :
  let w' := (app bcrypt_hash bcrypt_compare int4_in env route body w).2 in
  route = POST_sign_in \/ route = POST_register
  \/ session w' = session w \/ session w' = None.
Proof.
  simpl. unfold app.
  assert (session (passport_session env w).2 = session w
          \/ session (passport_session env w).2 = None) as Hs.
  { unfold passport_session, bind, deserializeUser. run.
    destruct (session w) as [id|] eqn:Hsw; simpl; [|by left].
    destruct (deserialize_fault env); simpl; [by left|].
    destruct (filter _ _); simpl; [by right|by left]. }
  destruct (passport_session env w) as [[user|e] w1]; simpl in *;
    [|by right; right].
  assert (route = POST_sign_in \/ route = POST_register
          \/ session (route_handler bcrypt_hash bcrypt_compare int4_in
                        env route (mkRequest body user) w1).2 = session w1
          \/ session (route_handler bcrypt_hash bcrypt_compare int4_in
                        env route (mkRequest body user) w1).2 = None) as Hr.
  { destruct route; simpl; unfold_routes; auto.
    - right; right; left. by destruct (query_fault env).
    - right; right; left. destruct (query_fault env); simpl; [done|].
      destruct (int4_in id); simpl; [|done]. by destruct (filter _ _).
    - right; right; left. by destruct user.
    - right; right. destruct (session_fault env); simpl; auto.
    - right; right; left. by destruct user.
    - right; right; left. destruct user as [u|]; [|done].
      destruct (required _) as [title|]; [|done].
      destruct (required _) as [content|]; [|done]. simpl.
      by destruct (query_fault env). }
  destruct Hr as [?|[?|[Hr|Hr]]]; auto; right; right; rewrite Hr; auto.
Qed.

(** ** What a route answers *)


(** X18: the user shown to the templates is the user of the request:
    every page a route renders carries [req.user] as [res.locals.user], and
    the pages of the protected routes always carry a signed-in user. *)
Theorem rendered_pages_carry_the_request_user
    env route req w status view user locals w' :
  route_handler bcrypt_hash bcrypt_compare int4_in env route req w
  = (Returned (render status view user locals), w') ->
  user = req_user req
  /\ (route = GET_write \/ route = POST_write -> is_Some user).
Proof.
  destruct route; simpl; unfold_routes.
  - destruct (query_fault env); simpl; intros [= _ _ <- _ _];
      (split; [done|by intros [|]]).
  - destruct (query_fault env); simpl; [done|].
    destruct (int4_in id); simpl; [|done].
    destruct (filter _ _); simpl; [done|].
    intros [= _ _ <- _ _]. split; [done|by intros [|]].
  - intros [= _ _ <- _ _]. split; [done|by intros [|]].
  - intros [= _ _ <- _ _]. split; [done|by intros [|]].
  - assert (forall (e : JsError) (w0 : World),
              (if decide (code e = Some "23505")
               then ret (redirect
                      "/sign-in?error=Username already exists. Please sign in")
               else ret (render 500 "register" (req_user req)
                           (locals_error "Internal server error."))) w0
              = (Returned (render status view user locals), w') ->
              user = req_user req
              /\ (POST_register = GET_write \/ POST_register = POST_write ->
                  is_Some user)) as Hcatch.
    { intros e0 w0. destruct (decide _); unfold ret; [done|].
      intros [= _ _ <- _ _]. split; [done|by intros [|]]. }
    destruct (required _) as [name|];
      [|intros [= _ _ <- _ _]; split; [done|by intros [|]]].
    destruct (required _) as [pw|];
      [|intros [= _ _ <- _ _]; split; [done|by intros [|]]].
    destruct (bcrypt_hash pw 10 (salt env)) as [h|e]; simpl;
      [|apply Hcatch].
    destruct (query_fault env); simpl; [apply Hcatch|].
    destruct (insert_user name h (db w)) as [[[|u rows]|e] d']; simpl.
    + intros [= _ _ <- _ _]. split; [done|by intros [|]].
    + by destruct (session_fault env).
    + apply Hcatch.
  - destruct (req_user req); [done|].
    intros [= _ _ <- _ _]. split; [done|by intros [|]].
  - destruct (required _) as [name|];
      [|intros [= _ _ <- _ _]; split; [done|by intros [|]]].
    destruct (required _) as [pw|];
      [|intros [= _ _ <- _ _]; split; [done|by intros [|]]].
    destruct (query_fault env); simpl; [done|].
    destruct (filter _ _) as [|row rows]; simpl;
      [intros [= _ _ <- _ _]; split; [done|by intros [|]]|].
    destruct (bcrypt_compare pw (user_password row)) as [[]|]; simpl;
      [|intros [= _ _ <- _ _]; split; [done|by intros [|]]|done].
    by destruct (session_fault env).
  - by destruct (session_fault env).
  - destruct (req_user req) as [u|]; [|done].
    intros [= _ _ <- _ _]. split; [done|]. by intros _; eexists.
  - destruct (req_user req) as [u|]; [|done].
    destruct (required _) as [title|];
      [|intros [= _ _ <- _ _]; split; [done|by intros _; eexists]].
    destruct (required _) as [content|];
      [|intros [= _ _ <- _ _]; split; [done|by intros _; eexists]]. simpl.
    destruct (query_fault env); simpl;
      intros [= _ _ <- _ _]; (split; [done|by intros _; eexists]).
  - done.
Qed.

End Handlers.

(** * Worked requests *)

(** The handlers run on concrete tables, with the stand-in collaborators. *)

Ltac by_computation := compute_done.

Example register_alice :
  app demo_hash demo_compare demo_int4_in (no_faults "s1") POST_register
    (form [("username", "alice"); ("password", "pw")]) (mkWorld empty_db None)
  = (Returned (redirect "/welcome.html"), mkWorld db_alice (Some 1)).
Proof. vm_compute. reflexivity. Qed.

Example sign_in_alice :
  app demo_hash demo_compare demo_int4_in (no_faults "s2") POST_sign_in
    (form [("username", "alice"); ("password", "pw")]) (mkWorld db_alice None)
  = (Returned (redirect "/welcome"), mkWorld db_alice (Some 1)).
Proof. vm_compute. reflexivity. Qed.

Example sign_in_missing_password :
  app demo_hash demo_compare demo_int4_in (no_faults "s2") POST_sign_in
    (form [("username", "alice")]) (mkWorld db_alice None)
  = (Returned (render 401 "sign-in" None (locals_error "Missing credentials")),
     mkWorld db_alice None).
Proof. vm_compute. reflexivity. Qed.

Example write_then_view :
  let w := (app demo_hash demo_compare demo_int4_in (no_faults "s3") POST_write
              (form [("title", "Hello"); ("content", "First")])
              (mkWorld db_alice (Some 1))).2 in
  app demo_hash demo_compare demo_int4_in (no_faults "s4") (GET_posts_id "1")
    (form []) w
  = (Returned (render 200 "post" (Some alice)
                 (locals_post (mkPost 1 "Hello" "First" "alice"))), w).
Proof. vm_compute. reflexivity. Qed.

Example view_post_not_a_number :
  app demo_hash demo_compare demo_int4_in (no_faults "s4")
    (GET_posts_id "abc") (form []) (mkWorld db_alice None)
  = (Returned (send 500 "Server error"), mkWorld db_alice None).
Proof. vm_compute. reflexivity. Qed.

Example sign_out_alice :
  app demo_hash demo_compare demo_int4_in (no_faults "s5") POST_sign_out
    (form []) (mkWorld db_alice (Some 1))
  = (Returned (redirect "/"), mkWorld db_alice None).
Proof. vm_compute. reflexivity. Qed.

(** ** The theorems at concrete requests *)

Lemma sign_in_failures_indistinguishable_witness :
  post_sign_in demo_compare (no_faults "s2")
    (mkRequest (form [("username", "alice"); ("password", "wrong")]) None)
    (mkWorld db_alice None)
  = post_sign_in demo_compare (no_faults "s2")
      (mkRequest (form [("username", "bob"); ("password", "pw")]) None)
      (mkWorld db_alice None).
Proof.
  destruct (sign_in_failures_indistinguishable demo_compare (no_faults "s2")
              (mkWorld db_alice None) None
              (form [("username", "bob"); ("password", "pw")])
              (form [("username", "alice"); ("password", "wrong")])
              "bob" "pw" "wrong" alice) as (_ & _ & _ & H);
    [reflexivity|by_computation|reflexivity|reflexivity|by_computation
    |reflexivity|reflexivity|by_computation|reflexivity|exact H].
Defined.

Lemma register_twice_witness :
  exists w1,
    post_register demo_hash (no_faults "s1")
      (mkRequest (form [("username", "alice"); ("password", "pw")]) None)
      (mkWorld empty_db None)
    = (Returned (redirect "/welcome.html"), w1)
    /\ users (db w1) = [alice]
    /\ db_query None (insert_user "alice" "s2other") w1
       = (Thrown unique_violation, w1)
    /\ post_register demo_hash (no_faults "s2")
         (mkRequest (form [("username", "alice"); ("password", "other")]) None)
         w1
       = (Returned
            (redirect "/sign-in?error=Username already exists. Please sign in"),
          w1).
Proof.
  apply (register_twice demo_hash (no_faults "s1") (no_faults "s2")
           (mkRequest (form [("username", "alice"); ("password", "pw")]) None)
           (mkRequest (form [("username", "alice"); ("password", "other")])
              None)
           (mkWorld empty_db None) "alice" "pw" "other" "s1pw" "s2other");
    try reflexivity.
  by_computation.
Defined.

(** C3 as stated fails: when the automatic sign-in of a fresh registration
    fails, the user row is stored and the response is the redirect to
    /sign-in, status 302, neither a success nor the duplicate-username
    redirect. *)
Lemma register_login_failure_is_not_500 :
  ~ register_failures_are_500 demo_hash
      (mkEnv None None "s1" (Some session_down))
      (mkRequest (form [("username", "alice"); ("password", "pw")]) None)
      (mkWorld empty_db None).
Proof.
  intros H.
  assert (post_register demo_hash (mkEnv None None "s1" (Some session_down))
            (mkRequest (form [("username", "alice"); ("password", "pw")])
               None)
            (mkWorld empty_db None)
          = (Returned (redirect "/sign-in"), mkWorld db_alice None)) as E
    by (vm_compute; reflexivity).
  specialize (H eq_refl eq_refl _ _ E).
  assert (status_code (redirect "/sign-in") = Some 500) as Hs
    by (apply H; discriminate).
  discriminate Hs.
Qed.

Lemma register_failure_responses_witness :
  post_register demo_hash (mkEnv None (Some store_down) "s1" None)
    (mkRequest (form [("username", "alice"); ("password", "pw")]) None)
    (mkWorld empty_db None)
  = (Returned (render 500 "register" None
                 (locals_error "Internal server error.")),
     mkWorld empty_db None)
  /\ post_register demo_hash (mkEnv None None "s1" (Some session_down))
       (mkRequest (form [("username", "alice"); ("password", "pw")]) None)
       (mkWorld empty_db None)
     = (Returned (redirect "/sign-in"), mkWorld db_alice None).
Proof.
  split.
  - destruct (register_failure_responses demo_hash
                (mkEnv None (Some store_down) "s1" None)
                (mkRequest (form [("username", "alice"); ("password", "pw")])
                   None)
                (mkWorld empty_db None) "alice" "pw" eq_refl eq_refl)
      as (H & _ & _).
    apply (H store_down); [discriminate|].
    right. exists "s1pw". split; reflexivity.
  - destruct (register_failure_responses demo_hash
                (mkEnv None None "s1" (Some session_down))
                (mkRequest (form [("username", "alice"); ("password", "pw")])
                   None)
                (mkWorld empty_db None) "alice" "pw" eq_refl eq_refl)
      as (_ & H & _).
    apply (H "s1pw" session_down); [reflexivity|reflexivity| |reflexivity].
    by_computation.
Defined.

Lemma home_lists_newest_first_witness :
  let write title content :=
    mkRequest (form [("title", title); ("content", content)]) (Some alice) in
  exists rA wA rB wB rC wC,
    route_handler demo_hash demo_compare demo_int4_in (no_faults "")
      POST_write (write "A" "first") (mkWorld db_alice (Some 1))
    = (Returned rA, wA)
    /\ route_handler demo_hash demo_compare demo_int4_in (no_faults "")
         POST_write (write "B" "second") wA
       = (Returned rB, wB)
    /\ route_handler demo_hash demo_compare demo_int4_in (no_faults "")
         POST_write (write "C" "third") wB
       = (Returned rC, wC)
    /\ get_home (no_faults "") (mkRequest (form []) None) wC
       = (Returned
            (render 200 "home" None
               (locals_posts
                  [mkPost 3 "C" "third" "alice"; mkPost 2 "B" "second" "alice";
                   mkPost 1 "A" "first" "alice"])),
          wC).
Proof.
  intros write.
  refine (proj2 (home_lists_newest_first demo_hash demo_compare demo_int4_in
                   (no_faults "") (mkRequest (form []) None)
                   (mkWorld db_alice (Some 1)))
            (no_faults "") (write "A" "first") alice "A" "first"
            (no_faults "") (write "B" "second") alice "B" "second"
            (no_faults "") (write "C" "third") alice "C" "third"
            _ eq_refl _ _ _).
  - split; simpl; by_computation.
  - repeat split.
  - repeat split.
  - repeat split.
Defined.

Lemma home_swallows_store_failure_witness :
  get_home (mkEnv None (Some store_down) "" None) (mkRequest (form []) None)
    (mkWorld db_alice None)
  = (Returned (render 200 "home" None (locals_posts [])),
     mkWorld db_alice None).
Proof.
  apply (proj1 (home_swallows_store_failure demo_hash demo_compare
                  demo_int4_in (mkEnv None (Some store_down) "" None)
                  (mkRequest (form []) None) (form [])
                  (mkWorld db_alice None) store_down eq_refl)).
Defined.

Lemma write_requires_authentication_witness :
  app demo_hash demo_compare demo_int4_in (no_faults "") POST_write
    (form [("title", "Hello"); ("content", "First")]) (mkWorld db_alice None)
  = (Returned (redirect "/sign-in"), mkWorld db_alice None)
  /\ app demo_hash demo_compare demo_int4_in (no_faults "") POST_write
       (form [("title", "Hello"); ("content", "First")])
       (mkWorld db_alice (Some 7))
     = (Returned (redirect "/sign-in"), mkWorld db_alice None).
Proof.
  destruct (write_requires_authentication demo_hash demo_compare demo_int4_in
              (no_faults "") (form [("title", "Hello"); ("content", "First")])
              (mkWorld db_alice None)) as (_ & H1 & _).
  destruct (write_requires_authentication demo_hash demo_compare demo_int4_in
              (no_faults "") (form [("title", "Hello"); ("content", "First")])
              (mkWorld db_alice (Some 7))) as (_ & _ & H2).
  split; [exact (H1 eq_refl)|].
  apply (H2 7); [reflexivity|reflexivity|by_computation].
Defined.

Lemma deserialize_missing_user_is_unauthenticated_witness :
  deserializeUser (no_faults "") 7 (mkWorld db_alice (Some 7))
  = (Returned (done_false tt), mkWorld db_alice (Some 7))
  /\ passport_session (no_faults "") (mkWorld db_alice (Some 7))
     = (Returned None, mkWorld db_alice None).
Proof.
  destruct (deserialize_missing_user_is_unauthenticated (no_faults "") 7
              (mkWorld db_alice (Some 7))) as (H & _ & _);
    [by_computation|].
  destruct (H eq_refl) as [H1 H2]. split; [exact H1|exact (H2 eq_refl)].
Defined.

Lemma view_post_responses_witness :
  get_posts_id demo_int4_in (no_faults "") (mkRequest (form []) None) "7"
    (mkWorld db_alice None)
  = (Returned (send 404 "Post not found"), mkWorld db_alice None)
  /\ get_posts_id demo_int4_in (mkEnv None (Some store_down) "" None)
       (mkRequest (form []) None) "7" (mkWorld db_alice None)
     = (Returned (send 500 "Server error"), mkWorld db_alice None).
Proof.
  split.
  - apply (proj1 (view_post_responses demo_int4_in (no_faults "")
                    (mkRequest (form []) None) "7" (mkWorld db_alice None))
             7); [reflexivity|reflexivity|by_computation].
  - apply (proj1 (proj2 (view_post_responses demo_int4_in
                           (mkEnv None (Some store_down) "" None)
                           (mkRequest (form []) None) "7"
                           (mkWorld db_alice None)))
             store_down).
    left. reflexivity.
Defined.

Lemma falsy_field_is_bad_request_witness :
  post_register demo_hash (no_faults "s1")
    (mkRequest (form [("username", ""); ("password", "pw")]) None)
    (mkWorld empty_db None)
  = (Returned (render 400 "register" None
                 (locals_error "Username and password are required.")),
     mkWorld empty_db None)
  /\ post_write (no_faults "")
       (mkRequest (form [("title", ""); ("content", "text")]) (Some alice))
       (mkWorld db_alice (Some 1))
     = (Returned (render 400 "write" (Some alice)
                    (locals_write (Some "Title and content are required.")
                       None)),
        mkWorld db_alice (Some 1)).
Proof.
  split.
  - apply (proj1 (falsy_field_is_bad_request demo_hash (no_faults "s1")
                    (mkRequest (form [("username", ""); ("password", "pw")])
                       None)
                    (mkWorld empty_db None))).
    left. reflexivity.
  - apply (proj1 (proj2 (falsy_field_is_bad_request demo_hash (no_faults "")
                           (mkRequest
                              (form [("title", ""); ("content", "text")])
                              (Some alice))
                           (mkWorld db_alice (Some 1))))).
    left. reflexivity.
Defined.

(** ** The further properties at concrete requests *)

Lemma LocalStrategy_authenticates_only_on_match_witness :
  query_fault (no_faults "") = None
  /\ alice ∈ users (db (mkWorld db_alice None))
  /\ user_username alice = "alice"
  /\ demo_compare "pw" (user_password alice) = Returned true
  /\ mkWorld db_alice None = mkWorld db_alice None.
Proof.
  apply (LocalStrategy_authenticates_only_on_match demo_compare
           (no_faults "") "alice" "pw" (mkWorld db_alice None) alice
           (mkWorld db_alice None)).
  reflexivity.
Defined.

Lemma sign_in_establishes_session_witness :
  post_sign_in demo_compare (no_faults "")
    (mkRequest (sign_in_form "alice" "pw") None) (mkWorld db_alice None)
  = (Returned (redirect "/welcome"), mkWorld db_alice (Some 1)).
Proof.
  apply (sign_in_establishes_session demo_compare (no_faults "")
           (sign_in_form "alice" "pw") None (mkWorld db_alice None) alice
           "pw");
    [reflexivity|reflexivity|by_computation|by_computation|reflexivity
    |reflexivity|reflexivity].
Defined.




Lemma deserialize_serialize_round_trip_witness :
  deserializeUser (no_faults "") (serializeUser alice)
    (mkWorld db_alice (Some 1))
  = (Returned (done_user alice), mkWorld db_alice (Some 1)).
Proof.
  apply (deserialize_serialize_round_trip (no_faults "")
           (mkWorld db_alice (Some 1)) alice);
    [reflexivity|by_computation|by_computation].
Defined.

Lemma session_restore_failure_ends_request_witness :
  app demo_hash demo_compare demo_int4_in
    (mkEnv (Some store_down) None "" None) GET_home (form [])
    (mkWorld db_alice (Some 1))
  = (Returned (next_error store_down), mkWorld db_alice (Some 1)).
Proof.
  apply (session_restore_failure_ends_request demo_hash demo_compare
           demo_int4_in (mkEnv (Some store_down) None "" None) GET_home
           (form []) (mkWorld db_alice (Some 1)) 1 store_down);
    reflexivity.
Defined.

Lemma register_then_sign_in_witness :
  exists w1,
    post_register demo_hash (no_faults "s1")
      (mkRequest (sign_in_form "alice" "pw") None) (mkWorld empty_db None)
    = (Returned (redirect "/welcome.html"), w1)
    /\ forall s,
         post_sign_in demo_compare (no_faults "")
           (mkRequest (sign_in_form "alice" "pw") None) (mkWorld (db w1) s)
         = (Returned (redirect "/welcome"), mkWorld (db w1) (Some 1)).
Proof.
  apply (register_then_sign_in demo_hash demo_compare (no_faults "s1")
           (no_faults "") (mkRequest (sign_in_form "alice" "pw") None)
           (sign_in_form "alice" "pw") None (mkWorld empty_db None)
           "alice" "pw" "s1pw");
    try reflexivity.
  by_computation.
Defined.

Lemma register_then_session_restores_user_witness :
  exists w1,
    post_register demo_hash (no_faults "s1")
      (mkRequest (sign_in_form "alice" "pw") None) (mkWorld empty_db None)
    = (Returned (redirect "/welcome.html"), w1)
    /\ session w1 = Some 1
    /\ passport_session (no_faults "") w1 = (Returned (Some alice), w1).
Proof.
  apply (register_then_session_restores_user demo_hash (no_faults "s1")
           (no_faults "") (mkRequest (sign_in_form "alice" "pw") None)
           (mkWorld empty_db None) "alice" "pw" "s1pw");
    try reflexivity.
  - constructor.
  - by_computation.
Defined.

Lemma write_as_signed_in_user_witness :
  app demo_hash demo_compare demo_int4_in (no_faults "") POST_write
    (post_form "Hello" "First") (mkWorld db_alice (Some 1))
  = (Returned (render 200 "write" (Some alice)
                 (locals_write None (Some "Post created successfully!"))),
     mkWorld (mkDb [alice] 2 [mkPost 1 "Hello" "First" "alice"] 2) (Some 1)).
Proof.
  apply (write_as_signed_in_user demo_hash demo_compare demo_int4_in
           (no_faults "") (post_form "Hello" "First")
           (mkWorld db_alice (Some 1)) alice "Hello" "First");
    [reflexivity|reflexivity|by_computation|by_computation|reflexivity
    |reflexivity].
Defined.

Lemma written_post_can_be_viewed_witness :
  exists r w1,
    route_handler demo_hash demo_compare demo_int4_in (no_faults "")
      POST_write (mkRequest (post_form "Hello" "First") (Some alice))
      (mkWorld db_alice (Some 1))
    = (Returned r, w1)
    /\ get_posts_id demo_int4_in (no_faults "") (mkRequest (form []) None)
         "1" w1
       = (Returned (render 200 "post" None
                      (locals_post (mkPost 1 "Hello" "First" "alice"))), w1).
Proof.
  apply (written_post_can_be_viewed demo_hash demo_compare demo_int4_in
           (no_faults "") (mkRequest (post_form "Hello" "First") (Some alice))
           (mkWorld db_alice (Some 1)) alice "Hello" "First" (no_faults "")
           (mkRequest (form []) None) "1");
    [constructor|repeat split|reflexivity|reflexivity].
Defined.

Lemma view_post_renders_stored_row_witness :
  let d := mkDb [alice] 2 [mkPost 1 "Hello" "First" "alice"] 2 in
  query_fault (no_faults "") = None
  /\ mkPost 1 "Hello" "First" "alice" ∈ posts (db (mkWorld d None))
  /\ demo_int4_in "1" = inl (post_id (mkPost 1 "Hello" "First" "alice"))
  /\ mkWorld d None = mkWorld d None.
Proof.
  intros d.
  apply (view_post_renders_stored_row demo_int4_in (no_faults "")
           (mkRequest (form []) None) "1" (mkWorld d None) 200 "post" None
           (mkPost 1 "Hello" "First" "alice") (mkWorld d None)).
  reflexivity.
Defined.

Lemma tables_are_append_only_witness :
  posts (db (app demo_hash demo_compare demo_int4_in (no_faults "s2")
               POST_register (sign_in_form "bob" "pw")
               (mkWorld db_alice None)).2)
  = posts db_alice.
Proof.
  destruct (tables_are_append_only demo_hash demo_compare demo_int4_in
              (no_faults "s2") POST_register (sign_in_form "bob" "pw")
              (mkWorld db_alice None)) as (_ & _ & _ & H & _).
  apply H. discriminate.
Defined.

Lemma home_lists_in_reverse_creation_order_witness :
  let w := serve demo_hash demo_compare demo_int4_in
             [(no_faults "s1", POST_register, sign_in_form "alice" "pw");
              (no_faults "", POST_write, post_form "A" "first");
              (no_faults "", POST_write, post_form "B" "second")]
             (mkWorld empty_db None) in
  get_home (no_faults "") (mkRequest (form []) None) w
  = (Returned (render 200 "home" None
                 (locals_posts [mkPost 2 "B" "second" "alice";
                                mkPost 1 "A" "first" "alice"])), w).
Proof.
  apply (home_lists_in_reverse_creation_order demo_hash demo_compare
           demo_int4_in
           [(no_faults "s1", POST_register, sign_in_form "alice" "pw");
            (no_faults "", POST_write, post_form "A" "first");
            (no_faults "", POST_write, post_form "B" "second")]
           None (no_faults "") (mkRequest (form []) None)).
  reflexivity.
Defined.


Lemma rendered_pages_carry_the_request_user_witness :
  Some alice = req_user (mkRequest (form []) (Some alice))
  /\ (GET_write = GET_write \/ GET_write = POST_write -> is_Some (Some alice)).
Proof.
  apply (rendered_pages_carry_the_request_user demo_hash demo_compare
           demo_int4_in (no_faults "") GET_write
           (mkRequest (form []) (Some alice)) (mkWorld db_alice (Some 1))
           200 "write" (Some alice) (locals_write None None)
           (mkWorld db_alice (Some 1))).
  reflexivity.
Defined.
